(** * price-bot-bg: the price tracker of [main.py], embedded and verified

    The development follows [main.py] and [config.py]:
    - [PyText]: the text operations the tracker calls ([str.replace],
      [in], [str.strip], the pattern [\d+\.?\d*] of [re.findall]);
    - [PyFloat]: Python's [float] as the tracker uses it (comparison,
      product, truthiness, [float(str)] and [str(float)]);
    - [Config]: the constants of [config.py];
    - [Ledger]: [price_history.csv] as the [csv] module presents it;
    - [PriceTracker]: the methods of the class and [main].

    Modelling conventions.
    - Text is a [string] of bytes (UTF-8); [\d] and whitespace are the
      ASCII ones.
    - A finite float is the exact decimal [m * 10^-e]; rounding to binary64
      and overflow to [inf] are not modelled.  [inf], [-inf] and [nan] are
      values of their own, with Python's comparison rules.
    - The history file is modelled after CSV parsing, as the list of its
      rows; quoting and line ends belong to the [csv] module, and every
      line of the file is taken to be complete.
    - What the network, the clock and the file system answer is an explicit
      argument of the function that asks. *)

From Stdlib Require Import ZArith NArith List String Ascii Bool Lia.
From Stdlib Require Import Permutation Sorted.
Import ListNotations.

Local Open Scope Z_scope.

(* ===================================================================== *)
(** ** Text *)

Module PyText.

Definition chars : Type := list ascii.

Definition of_string (s : string) : chars := list_ascii_of_string s.
Definition to_string (l : chars) : string := string_of_list_ascii l.

(** [\d], restricted to ASCII. *)
Definition is_digit (c : ascii) : bool :=
  let n := N_of_ascii c in (48 <=? n)%N && (n <=? 57)%N.

(** The whitespace [float] strips: tab, LF, VT, FF, CR and space. *)
Definition is_space (c : ascii) : bool :=
  let n := N_of_ascii c in ((9 <=? n)%N && (n <=? 13)%N) || (n =? 32)%N.

Definition digit_val (c : ascii) : N := (N_of_ascii c - 48)%N.

Definition digit_char (d : N) : ascii := ascii_of_N (48 + d).

(** ASCII lower case of one character. *)
Definition lower_char (c : ascii) : ascii :=
  let n := N_of_ascii c in
  if (65 <=? n)%N && (n <=? 90)%N then ascii_of_N (n + 32) else c.

Definition lower (l : chars) : chars := map lower_char l.

Fixpoint chars_eqb (a b : chars) : bool :=
  match a, b with
  | [], [] => true
  | x :: a', y :: b' => Ascii.eqb x y && chars_eqb a' b'
  | _, _ => false
  end.

(** [strip_prefix p s] is [Some r] when [s = p ++ r]. *)
Fixpoint strip_prefix (p s : chars) : option chars :=
  match p with
  | [] => Some s
  | x :: p' =>
      match s with
      | y :: s' => if Ascii.eqb x y then strip_prefix p' s' else None
      | [] => None
      end
  end.

(** [s.replace(old, '')] for a non-empty [old]: occurrences are dropped
    from left to right, without overlap.  The fuel is the length of the
    text, which no scan exceeds. *)
Fixpoint remove_fuel (fuel : nat) (old s : chars) : chars :=
  match fuel with
  | O => s
  | S fuel' =>
      match s with
      | [] => []
      | c :: s' =>
          match strip_prefix old s with
          | Some r => remove_fuel fuel' old r
          | None => c :: remove_fuel fuel' old s'
          end
      end
  end.

Definition remove (old s : chars) : chars :=
  match old with
  | [] => s
  | _ => remove_fuel (List.length s) old s
  end.

(** [sub in s]. *)
Fixpoint contains (sub s : chars) : bool :=
  match strip_prefix sub s with
  | Some _ => true
  | None => match s with
            | [] => false
            | _ :: s' => contains sub s'
            end
  end.

Fixpoint lstrip (s : chars) : chars :=
  match s with
  | c :: s' => if is_space c then lstrip s' else s
  | [] => []
  end.

Definition rstrip (s : chars) : chars := rev (lstrip (rev s)).

Definition strip (s : chars) : chars := rstrip (lstrip s).

(** The longest run of digits at the head of [s], and the rest. *)
Fixpoint span_digits (s : chars) : chars * chars :=
  match s with
  | c :: s' =>
      if is_digit c
      then let (d, r) := span_digits s' in (c :: d, r)
      else ([], s)
  | [] => ([], [])
  end.

(** The first match of [\d+\.?\d*] in [s], as [re.findall] finds it:
    skip to the first digit, take the digits, then a dot when one
    follows, then the digits after it. *)
Fixpoint first_number (s : chars) : option chars :=
  match s with
  | [] => None
  | c :: s' =>
      if is_digit c then
        let (ip, r) := span_digits s in
        match r with
        | dot :: r' =>
            if Ascii.eqb dot "."
            then let (fp, _) := span_digits r' in
                 Some (ip ++ "."%char :: fp)
            else Some ip
        | [] => Some ip
        end
      else first_number s'
  end.

End PyText.

(* ===================================================================== *)
(** ** Floats *)

Module PyFloat.
Import PyText.

(** [Fin m e] is the decimal [m * 10^-e]. *)
Inductive pyfloat : Type :=
| Fin (m : Z) (e : nat)
| PInf
| NInf
| NaN.

Definition pow10 (e : nat) : Z := 10 ^ Z.of_nat e.

(** [a < b]: false as soon as one side is [nan]. *)
Definition flt (a b : pyfloat) : bool :=
  match a, b with
  | NaN, _ | _, NaN => false
  | _, NInf => false
  | NInf, _ => true
  | PInf, _ => false
  | Fin _ _, PInf => true
  | Fin m1 e1, Fin m2 e2 => m1 * pow10 e2 <? m2 * pow10 e1
  end.

(** [a <= b]. *)
Definition fle (a b : pyfloat) : bool :=
  match a, b with
  | NaN, _ | _, NaN => false
  | NInf, _ => true
  | _, NInf => false
  | _, PInf => true
  | PInf, _ => false
  | Fin m1 e1, Fin m2 e2 => m1 * pow10 e2 <=? m2 * pow10 e1
  end.

(** [a == b]. *)
Definition feq (a b : pyfloat) : bool :=
  match a, b with
  | Fin m1 e1, Fin m2 e2 => m1 * pow10 e2 =? m2 * pow10 e1
  | PInf, PInf | NInf, NInf => true
  | _, _ => false
  end.

(** [a != b]. *)
Definition fne (a b : pyfloat) : bool := negb (feq a b).

Definition fneg (a : pyfloat) : pyfloat :=
  match a with
  | Fin m e => Fin (- m) e
  | PInf => NInf
  | NInf => PInf
  | NaN => NaN
  end.

(** [a * b]. *)
Definition fmul (a b : pyfloat) : pyfloat :=
  match a, b with
  | NaN, _ | _, NaN => NaN
  | Fin m1 e1, Fin m2 e2 => Fin (m1 * m2) (e1 + e2)
  | Fin m _, (PInf | NInf) as i | (PInf | NInf) as i, Fin m _ =>
      if m =? 0 then NaN else if 0 <? m then i else fneg i
  | PInf, PInf | NInf, NInf => PInf
  | PInf, NInf | NInf, PInf => NInf
  end.

(** [bool(a)]: every float but zero is true. *)
Definition truthy (a : pyfloat) : bool := fne a (Fin 0 0).

(** An [int] used where a float is expected. *)
Definition of_int (n : Z) : pyfloat := Fin n 0.

(** The representative with the fewest decimals. *)
Fixpoint norm (m : Z) (e : nat) : pyfloat :=
  match e with
  | O => Fin m O
  | S e' => if m mod 10 =? 0 then norm (m / 10) e' else Fin m e
  end.

(** The number a list of digits writes. *)
Definition digits_value (ds : chars) : N :=
  fold_left (fun acc c => (acc * 10 + digit_val c)%N) ds 0%N.

(** [digitpart] of the float grammar: digits, with single underscores
    allowed between two digits.  Returns the digits and the rest. *)
Fixpoint digitpart (s : chars) : chars * chars :=
  match s with
  | c :: s' =>
      if is_digit c then
        match s' with
        | u :: ((c2 :: _) as t) =>
            if Ascii.eqb u "_" && is_digit c2
            then let (d, r) := digitpart t in (c :: d, r)
            else let (d, r) := digitpart s' in (c :: d, r)
        | _ => let (d, r) := digitpart s' in (c :: d, r)
        end
      else ([], s)
  | [] => ([], [])
  end.

(** A leading sign: is it [-], and the rest. *)
Definition split_sign (s : chars) : bool * chars :=
  match s with
  | c :: r =>
      if Ascii.eqb c "-" then (true, r)
      else if Ascii.eqb c "+" then (false, r)
      else (false, s)
  | [] => (false, s)
  end.

(** [inf], [infinity] and [nan], in any case. *)
Definition parse_special (s : chars) : option pyfloat :=
  let l := lower s in
  if chars_eqb l (of_string "inf") || chars_eqb l (of_string "infinity")
  then Some PInf
  else if chars_eqb l (of_string "nan") then Some NaN
  else None.

(** The exponent part: empty, or [e]/[E], a sign and a [digitpart]. *)
Definition parse_exponent (s : chars) : option Z :=
  match s with
  | [] => Some 0
  | c :: r =>
      if Ascii.eqb (lower_char c) "e"%char then
        let (neg, r') := split_sign r in
        match digitpart r' with
        | ((_ :: _) as ds, []) =>
            let x := Z.of_N (digits_value ds) in
            Some (if neg then - x else x)
        | _ => None
        end
      else None
  end.

(** [floatnumber]: [digitpart] [.] [digitpart] [exponent], with a digit
    on one side of the dot at least. *)
Definition parse_floatnumber (s : chars) : option pyfloat :=
  let (ip, r1) := digitpart s in
  let (fp, r2) := match r1 with
                  | dot :: r =>
                      if Ascii.eqb dot "." then digitpart r else ([], r1)
                  | [] => ([], r1)
                  end in
  match ip ++ fp with
  | [] => None
  | ds =>
      match parse_exponent r2 with
      | None => None
      | Some x =>
          let m := Z.of_N (digits_value ds) in
          let k := Z.of_nat (List.length fp) - x in
          Some (if k <=? 0 then norm (m * 10 ^ (- k)) 0
                else norm m (Z.to_nat k))
      end
  end.

(** [float(s)] on text; [None] stands for [ValueError]. *)
Definition float_of_chars (s : chars) : option pyfloat :=
  let (neg, body) := split_sign (strip s) in
  let sgn := fun v => if neg then fneg v else v in
  match parse_special body with
  | Some v => Some (sgn v)
  | None => option_map sgn (parse_floatnumber body)
  end.

Definition py_float (s : string) : option pyfloat :=
  float_of_chars (of_string s).

(** The [e] lowest digits of [r], highest first. *)
Fixpoint low_digits (e : nat) (r : N) : chars :=
  match e with
  | O => []
  | S e' => low_digits e' (r / 10) ++ [digit_char (r mod 10)]
  end.

Fixpoint drop_zeros (ds : chars) : chars :=
  match ds with
  | c :: ds' => if Ascii.eqb c "0" then drop_zeros ds' else ds
  | [] => []
  end.

(** The decimal digits of [n], without leading zeros; ["0"] for zero.
    A number of [k] bits has at most [k] digits. *)
Definition digits_of (n : N) : chars :=
  match drop_zeros (low_digits (N.to_nat (N.size n)) n) with
  | [] => ["0"%char]
  | ds => ds
  end.

(** [str(a)]: integer part, dot, decimals (one at least). *)
Definition chars_of_float (a : pyfloat) : chars :=
  match a with
  | PInf => of_string "inf"
  | NInf => of_string "-inf"
  | NaN => of_string "nan"
  | Fin m e =>
      match norm m e with
      | Fin m' e' =>
          let n := Z.to_N (Z.abs m') in
          let p := Z.to_N (pow10 e') in
          (if m' <? 0 then ["-"%char] else [])
            ++ digits_of (n / p)
            ++ "."%char
            :: match e' with
               | O => ["0"%char]
               | _ => low_digits e' (n mod p)
               end
      | _ => []
      end
  end.

Definition py_str (a : pyfloat) : string := to_string (chars_of_float a).

(** [min(l)] for a non-empty list: the first item is kept until a
    strictly smaller one comes. *)
Definition py_min (x : pyfloat) (l : list pyfloat) : pyfloat :=
  fold_left (fun acc y => if flt y acc then y else acc) l x.

End PyFloat.

(* ===================================================================== *)
(** ** Dictionaries with string keys, in insertion order *)

Module PyDict.

Definition dict (V : Type) : Type := list (string * V).

(** [d[k] = v]: a known key keeps its place and takes the new value, a
    new key goes last. *)
Fixpoint set {V} (k : string) (v : V) (d : dict V) : dict V :=
  match d with
  | [] => [(k, v)]
  | (k', v') :: d' =>
      if String.eqb k k' then (k, v) :: d' else (k', v') :: set k v d'
  end.

(** [d.get(k)]. *)
Fixpoint get {V} (k : string) (d : dict V) : option V :=
  match d with
  | [] => None
  | (k', v) :: d' => if String.eqb k k' then Some v else get k d'
  end.

Definition keys {V} (d : dict V) : list string := map fst d.

End PyDict.

(* ===================================================================== *)
(** ** config.py *)

Module Config.

Definition PRICE_THRESHOLD : Z := 7500.

Definition TEST_MODE : bool := false.

(** One entry of [WATCH_SITES].  [backup_selector] and [wait_time] are
    read with [dict.get] and a default, hence optional. *)
Record site_config : Type := {
  url : string;
  price_selector : string;
  backup_selector : option string;
  method : string;
  wait_time : option Z
}.

(** The one-character string of a double quote. *)
Definition dquote : string := String (ascii_of_N 34) EmptyString.

Definition site (name u sel backup meth : string) (wait : Z)
  : string * site_config :=
  (name, {| url := u; price_selector := sel;
            backup_selector := Some backup; method := meth;
            wait_time := Some wait |}).

Definition WATCH_SITES : PyDict.dict site_config := [
  site "Amazon India"
    "https://www.amazon.in/Casio-Analog-Digital-Black-Watch-GA-2100-1A1DR-G987/dp/B07YCTCMFK/"
    ".a-price-whole"
    "#corePriceDisplay_desktop_feature_div .a-price-whole"
    "static" 3;
  site "Flipkart"
    "https://www.flipkart.com/casio-ga-2100-1a1dr-g-shock-black-dial-resin-strap-analog-digital-watch-men/p/itm734eb8e33cc5b"
    "._30jeq3" ".UOCQB1 div" "dynamic" 4;
  site "Myntra"
    "https://www.myntra.com/watches/casio/casio-men-g-shock-ga-2100-1a1dr-black-analog-digital-dial-black-resin-strap-watch-g987/10761810/buy"
    ".pdp-price strong" ".pdp-discount-container strong" "dynamic" 3;
  site "Casio Official"
    "https://www.casio.com/in/watches/gshock/product.GA-2100-1A1/"
    ".p-product_detail-price" ".price" "static" 2;
  site "Swiss Time House"
    "https://www.swisstimehouse.com/casio-g987-ga-2100-1a1dr-g-shock-mens-watch"
    ".ce-product-price span" ".price-item" "static" 3;
  site "Just In Time"
    "https://justintime.in/products/casio-resin-black-digital-mens-watch-g987"
    ".price-item--sale" ".price__sale span" "static" 3;
  site "Tata Cliq"
    "https://luxury.tatacliq.com/casio-g-shock-ga-2100-1a1dr-black-analog-digital-dial-black-resin-strap-mens-watch-g987/p-mp000000016123909"
    ".pdp-module__flxRgtIconColLft div"
    ("[data-testid=" ++ dquote ++ "price" ++ dquote ++ "]")%string
    "dynamic" 4;
  site "Ajio"
    "https://www.ajio.com/casio-ga-2100-1a1dr-analog-digital-watch-with-resin-strap/p/460813061_black"
    ".prod-price-section div" ".price" "dynamic" 3;
  site "Helios"
    "https://www.helioswatchstore.com/g-shock-g-shock-men-round-black-watches-g987"
    ".product-info-price span" ".price" "static" 2
].

End Config.

(* ===================================================================== *)
(** ** The history file *)

Module Ledger.
Import PyText.

(** A CSV row: its fields.  A blank line is the row [[]]. *)
Definition row : Type := list string.

(** [None]: no file at [HISTORY_FILE].  [Some rows]: the file, read as
    CSV; the file of no row is the file of size 0. *)
Definition store : Type := option (list row).

(** What the file system does when the tracker opens the file: each flag
    says that the call raises. *)
Record file_system : Type := {
  read_raises : bool;     (* open(HISTORY_FILE, 'r') and reading *)
  append_raises : bool;   (* open(HISTORY_FILE, 'a') *)
  rewrite_raises : bool   (* open(HISTORY_FILE, 'w') *)
}.

Definition healthy : file_system :=
  {| read_raises := false; append_raises := false;
     rewrite_raises := false |}.

(** [os.path.exists(HISTORY_FILE)]. *)
Definition exists_ (st : store) : bool :=
  match st with Some _ => true | None => false end.

(** [os.path.getsize(HISTORY_FILE)], up to what the tracker tests: zero
    or not.  The size of an absent file is never asked. *)
Definition getsize (st : store) : nat :=
  match st with Some rows => List.length rows | None => O end.

(** A record of [csv.DictReader]: field name to value, [None] for a
    field the row is too short for.  The entry of the surplus values of
    a long row, under the key [None], is left out: no code reads it. *)
Definition record : Type := PyDict.dict (option string).

(** [dict(zip(fieldnames, row))]. *)
Fixpoint zip_into (d : record) (fieldnames : row) (r : row) : record :=
  match fieldnames, r with
  | k :: ks, v :: vs => zip_into (PyDict.set k (Some v) d) ks vs
  | _, _ => d
  end.

(** [for key in fieldnames[lr:]: d[key] = None]. *)
Definition fill_rest (d : record) (fieldnames : row) (lr : nat) : record :=
  fold_left (fun d k => PyDict.set k None d) (skipn lr fieldnames) d.

Definition dict_of_row (fieldnames r : row) : record :=
  fill_rest (zip_into [] fieldnames r) fieldnames (List.length r).

(** [DictReader.fieldnames]: the first row of the file, when it has one. *)
Definition reader_fieldnames (rows : list row) : option row :=
  match rows with
  | [] => None
  | r :: _ => Some r
  end.

(** [list(reader)]: the rows after the first, blank ones skipped, as
    records. *)
Definition reader_records (rows : list row) : list record :=
  match rows with
  | [] => []
  | fieldnames :: data =>
      map (dict_of_row fieldnames)
          (filter (fun r => match r with [] => false | _ => true end) data)
  end.

(** [x in l] for strings. *)
Definition mem (x : string) (l : list string) : bool :=
  existsb (String.eqb x) l.

(** The fields of a row as the line that holds them (quoting apart). *)
Definition line_of_row (r : row) : string := String.concat "," r.

(** [str.strip] also strips the separators 0x1c to 0x1f. *)
Definition is_space_str (c : ascii) : bool :=
  let n := N_of_ascii c in
  is_space c || ((28 <=? n)%N && (n <=? 31)%N).

Fixpoint lstrip_str (s : chars) : chars :=
  match s with
  | c :: s' => if is_space_str c then lstrip_str s' else s
  | [] => []
  end.

Definition strip_str (s : chars) : chars :=
  rev (lstrip_str (rev (lstrip_str s))).

(** [file.readline().strip()] on a freshly opened file. *)
Definition first_line (rows : list row) : chars :=
  match rows with
  | [] => []
  | r :: _ => strip_str (of_string (line_of_row r))
  end.

End Ledger.

(* ===================================================================== *)
(** ** class PriceTracker *)

Module PriceTracker.
Import PyText PyFloat Config Ledger.

Inductive log_level : Type := INFO | WARNING | ERROR.

Definition log_record : Type := (log_level * string)%type.

(** *** extract_price_from_text *)

(** [price_text.replace('₹', '').replace(',', '').replace('Rs', '')
    .replace('INR', '')]. *)
Definition clean_text (price_text : string) : chars :=
  remove (of_string "INR")
    (remove (of_string "Rs")
       (remove (of_string ",")
          (remove (of_string "₹") (of_string price_text)))).

(** The method with what it logs.  [None] as input is Python's [None];
    [None] as result is the [return None] of the three failure exits. *)
Definition extract_price_from_text_run (price_text : option string)
  : option pyfloat * list log_record :=
  match price_text with
  | None | Some EmptyString => (None, [])
  | Some text =>
      let cleaned_text := clean_text text in
      match first_number cleaned_text with
      | Some number_pattern =>
          match float_of_chars number_pattern with
          | Some price =>
              if fle (of_int 5000) price && fle price (of_int 15000)
              then (Some price, [])
              else (Some price,
                    [(WARNING,
                      ("Price " ++ py_str price
                       ++ " seems outside expected range for G-Shock")%string)])
          | None =>
              (None,
               [(ERROR,
                 ("Could not convert '" ++ to_string number_pattern
                  ++ "' to float")%string)])
          end
      | None =>
          (None,
           [(WARNING,
             ("No valid price found in text: '" ++ text ++ "'")%string)])
      end
  end.

(** What the method returns. *)
Definition extract_price_from_text (price_text : option string)
  : option pyfloat :=
  fst (extract_price_from_text_run price_text).

(** *** scrape_price_static, scrape_price_dynamic *)

(** What a site answers.  [Failed]: the request, the browser or the
    parser raised.  [Page select]: the page came; [select sel] is the
    stripped text of the first element the selector [sel] matches, if
    one matches (in time, for a rendered page). *)
Inductive response : Type :=
| Failed
| Page (select : string -> option string).

(** The web: URL to answer. *)
Definition web : Type := string -> response.

(** [if price: return price], and [None] on every other path. *)
Definition price_if_true (price : option pyfloat) : option pyfloat :=
  match price with
  | Some p => if truthy p then Some p else None
  | None => None
  end.

Definition scrape_price_static (w : web) (site_name : string)
    (site_config : Config.site_config) : option pyfloat :=
  let primary_selector := price_selector site_config in
  let backup_selector :=
    match backup_selector site_config with
    | Some b => b
    | None => primary_selector
    end in
  match w (url site_config) with
  | Failed => None
  | Page select_one =>
      let price_element := select_one primary_selector in
      let price_element :=
        match price_element with
        | None =>
            if negb (String.eqb backup_selector primary_selector)
            then select_one backup_selector
            else None
        | Some _ => price_element
        end in
      match price_element with
      | Some price_text =>
          price_if_true (extract_price_from_text (Some price_text))
      | None => None
      end
  end.

(** The browser path: a selector that matches nothing in time raises
    [TimeoutException], which sends the code to the backup selector. *)
Definition scrape_price_dynamic (w : web) (site_name : string)
    (site_config : Config.site_config) : option pyfloat :=
  let primary_selector := price_selector site_config in
  let backup_selector :=
    match backup_selector site_config with
    | Some b => b
    | None => primary_selector
    end in
  match w (url site_config) with
  | Failed => None
  | Page wait_until =>
      let price_element :=
        match wait_until primary_selector with
        | Some el => Some el
        | None =>
            if negb (String.eqb backup_selector primary_selector)
            then wait_until backup_selector
            else None
        end in
      match price_element with
      | Some price_text =>
          price_if_true (extract_price_from_text (Some price_text))
      | None => None
      end
  end.

(** *** get_all_current_prices *)

(** One turn of the loop over the sites. *)
Definition check_site (w : web) (current_prices : PyDict.dict pyfloat)
    (entry : string * Config.site_config) : PyDict.dict pyfloat :=
  let (site_name, site_config) := entry in
  let price :=
    if String.eqb (method site_config) "static"
    then scrape_price_static w site_name site_config
    else scrape_price_dynamic w site_name site_config in
  match price_if_true price with
  | Some p => PyDict.set site_name p current_prices
  | None => current_prices
  end.

(** The loop, over any table of sites. *)
Definition get_prices_of (sites : PyDict.dict Config.site_config) (w : web)
  : PyDict.dict pyfloat :=
  fold_left (check_site w) sites [].

Definition get_all_current_prices (w : web) : PyDict.dict pyfloat :=
  get_prices_of WATCH_SITES w.

(** *** get_historical_data *)

(** The dictionary the method returns; [total_checks] is there only on
    the path that found records. *)
Record historical_data : Type := {
  lowest_ever : pyfloat;
  records : list record;
  total_checks : option nat
}.

(** [{'lowest_ever': float('inf'), 'records': []}]. *)
Definition no_data : historical_data :=
  {| lowest_ever := PInf; records := []; total_checks := None |}.

Definition fieldnames : row :=
  ["timestamp"; "site"; "price"; "is_new_low"; "below_threshold"]%string.

Definition required_columns : list string :=
  ["timestamp"; "site"; "price"]%string.

(** One turn of the loop over the records: a true [record.get('price')]
    that [float] reads is kept, anything else is passed over. *)
Definition price_of_record (r : record) : list pyfloat :=
  match PyDict.get "price" r with
  | Some (Some (String _ _ as text)) =>
      match py_float text with
      | Some p => [p]
      | None => []
      end
  | _ => []
  end.

Definition get_historical_data (fs : file_system) (st : store)
  : historical_data :=
  if negb (exists_ st) || (getsize st =? 0)%nat then no_data
  else if read_raises fs then no_data
  else
    let rows := match st with Some rows => rows | None => [] end in
    match reader_fieldnames rows with
    | None => no_data
    | Some names =>
        let missing_columns :=
          filter (fun col => negb (mem col names)) required_columns in
        match missing_columns with
        | _ :: _ => no_data
        | [] =>
            let records := reader_records rows in
            match records with
            | [] => no_data
            | _ =>
                let prices := flat_map price_of_record records in
                {| lowest_ever := match prices with
                                  | p :: ps => py_min p ps
                                  | [] => PInf
                                  end;
                   records := records;
                   total_checks := Some (List.length records) |}
            end
        end
    end.

(** *** save_price_data *)

(** [str(b)] for a [bool]. *)
Definition py_bool (b : bool) : string :=
  if b then "True"%string else "False"%string.

(** The row [writer.writerow] writes for one price. *)
Definition price_row (current_time : string) (h : historical_data)
    (entry : string * pyfloat) : row :=
  let (site_name, price) := entry in
  let is_new_low := flt price (lowest_ever h) in
  let below_threshold := fle price (of_int PRICE_THRESHOLD) in
  [current_time; site_name; py_str price;
   py_bool is_new_low; py_bool below_threshold].

(** The [except] block: when the file is there and its first line is
    empty or lacks [timestamp], the file is replaced by the header. *)
Definition repair_headers (fs : file_system) (st : store) : store :=
  match st with
  | None => st
  | Some rows =>
      if read_raises fs then st
      else
        let line := first_line rows in
        if match line with [] => true | _ => false end
           || negb (contains (of_string "timestamp") line)
        then if rewrite_raises fs then st else Some [fieldnames]
        else st
  end.

(** The method, as the file it leaves.  [current_time] is what
    [datetime.now()] gave. *)
Definition save_price_data (fs : file_system) (st : store)
    (current_time : string) (current_prices : PyDict.dict pyfloat)
  : store :=
  let historical_data := get_historical_data fs st in
  let file_exists := exists_ st && (0 <? getsize st)%nat in
  if append_raises fs then repair_headers fs st
  else
    let old := match st with Some rows => rows | None => [] end in
    Some (old
            ++ (if file_exists then [] else [fieldnames])
            ++ map (price_row current_time historical_data) current_prices).

(** *** check_for_deals *)

Definition reason_target : string := "At/below your target of ₹7,500.00".
Definition reason_low : string := "New historical low!".
Definition reason_drop : string := "Significant price drop detected".

(** The three tests of the loop body, in their order. *)
Definition alert_reasons (price : pyfloat) (h : historical_data)
  : list string :=
  (if fle price (of_int PRICE_THRESHOLD) then [reason_target] else [])
    ++ (if flt price (lowest_ever h) then [reason_low] else [])
    ++ (if fne (lowest_ever h) PInf
        then if flt price (fmul (lowest_ever h) (Fin 9 1))
             then [reason_drop] else []
        else []).

Record alert_info : Type := {
  alert_site : string;
  alert_price : pyfloat;
  historical_low : pyfloat;
  reason : string;
  alert_url : string
}.

(** The loop: the alerts handed to [send_email_alert], in order, and
    whether [WATCH_SITES[site_name]] raised [KeyError] on the way. *)
Fixpoint deals_loop (h : historical_data)
    (current_prices : PyDict.dict pyfloat) : list alert_info * bool :=
  match current_prices with
  | [] => ([], false)
  | (site_name, price) :: rest =>
      match alert_reasons price h with
      | [] => deals_loop h rest
      | alert_reasons =>
          match PyDict.get site_name WATCH_SITES with
          | None => ([], true)
          | Some cfg =>
              let (alerts, raised) := deals_loop h rest in
              ({| alert_site := site_name;
                  alert_price := price;
                  historical_low := lowest_ever h;
                  reason := String.concat " | " alert_reasons;
                  alert_url := url cfg |} :: alerts, raised)
          end
      end
  end.

(** The alerts sent, and [alerts_sent] when the method returns. *)
Definition check_for_deals (fs : file_system) (st : store)
    (current_prices : PyDict.dict pyfloat)
  : list alert_info * option nat :=
  let historical_data := get_historical_data fs st in
  let (alerts, raised) := deals_loop historical_data current_prices in
  (alerts, if raised then None else Some (List.length alerts)).

(** *** main *)

Inductive session_end : Type :=
| NoPrices                       (* the early [return] *)
| Completed (alerts_sent : nat)
| Crashed.                       (* the [except] of [main] *)

Record session : Type := {
  observed : PyDict.dict pyfloat;
  store_after : store;
  alerts : list alert_info;
  ending : session_end
}.

(** One session: collect, save, check.  The summary report reads the
    file once more and prints; it changes nothing here. *)
Definition main (w : web) (fs : file_system) (st : store)
    (current_time : string) : session :=
  let current_prices := get_all_current_prices w in
  match current_prices with
  | [] => {| observed := []; store_after := st; alerts := [];
             ending := NoPrices |}
  | _ =>
      let st' := save_price_data fs st current_time current_prices in
      let (sent, alerts_sent) := check_for_deals fs st' current_prices in
      {| observed := current_prices; store_after := st'; alerts := sent;
         ending := match alerts_sent with
                   | Some n => Completed n
                   | None => Crashed
                   end |}
  end.

End PriceTracker.

(* ===================================================================== *)
(** ** Notions the statements use *)

Module Notions.
Import PyText PyFloat Config Ledger PriceTracker.

Definition all_digits (l : chars) : Prop :=
  Forall (fun c => is_digit c = true) l.

Definition no_digit (l : chars) : Prop :=
  Forall (fun c => is_digit c = false) l.

(** [starts_without bad l]: [l] does not begin with a character for
    which [bad] holds. *)
Definition starts_without (bad : ascii -> bool) (l : chars) : Prop :=
  match l with
  | [] => True
  | c :: _ => bad c = false
  end.

(** [first_token s ip fp]: the leftmost, longest match of [\d+\.?\d*] in
    [s] has the digits [ip] before the dot; [fp] is [None] when no dot
    follows them, and the digits after the dot otherwise. *)
Inductive first_token (s : chars) : chars -> option chars -> Prop :=
| token_integer pre ip rest :
    s = pre ++ ip ++ rest ->
    no_digit pre -> all_digits ip -> ip <> [] ->
    starts_without (fun c => is_digit c || Ascii.eqb c ".") rest ->
    first_token s ip None
| token_decimal pre ip fp rest :
    s = pre ++ ip ++ "."%char :: fp ++ rest ->
    no_digit pre -> all_digits ip -> ip <> [] ->
    all_digits fp -> starts_without is_digit rest ->
    first_token s ip (Some fp).

(** The text of a token. *)
Definition token_text (ip : chars) (fp : option chars) : chars :=
  match fp with
  | None => ip
  | Some fp => ip ++ "."%char :: fp
  end.

(** The number a token writes: its digits, over ten to the number of
    decimals. *)
Definition token_value (ip : chars) (fp : option chars) : pyfloat :=
  match fp with
  | None => Fin (Z.of_N (digits_value ip)) 0
  | Some fp => norm (Z.of_N (digits_value (ip ++ fp))) (List.length fp)
  end.

(** A float a price text can give: finite, not negative, written with
    the fewest decimals. *)
Definition price_like (p : pyfloat) : Prop :=
  exists m e, p = Fin m e /\ 0 <= m /\ norm m e = Fin m e.

(** The scraper [get_all_current_prices] picks for a site. *)
Definition scrape_site (w : web) (site_name : string)
    (site_config : Config.site_config) : option pyfloat :=
  if String.eqb (method site_config) "static"
  then scrape_price_static w site_name site_config
  else scrape_price_dynamic w site_name site_config.

(** The entry a site adds to the mapping: one for a price, none for a
    miss. *)
Definition site_entry (w : web) (entry : string * Config.site_config)
  : list (string * pyfloat) :=
  match scrape_site w (fst entry) (snd entry) with
  | Some p => [(fst entry, p)]
  | None => []
  end.



(** Statistics with a given lowest price: what the evaluator is given
    when the history's minimum is [low]. *)
Definition stats_with (low : pyfloat) : historical_data :=
  {| lowest_ever := low; records := []; total_checks := None |}.

End Notions.

(* ===================================================================== *)
(** ** Concrete runs *)

Module Runs.
Import PyText PyFloat Config Ledger PriceTracker.

(** A page on which every selector finds the same text. *)
Definition page_showing (text : string) : response :=
  Page (fun _ => Some text).

(** Every request fails. *)
Definition web_down : web := fun _ => Failed.

(** Every site shows the same price text. *)
Definition web_showing (text : string) : web :=
  fun _ => page_showing text.

(** Only the Casio site answers, and only its backup selector matches. *)
Definition web_casio (text : string) : web :=
  fun u =>
    if String.eqb u
         "https://www.casio.com/in/watches/gshock/product.GA-2100-1A1/"
    then Page (fun sel => if String.eqb sel ".price" then Some text
                          else None)
    else Failed.

Definition noon : string := "2024-01-01 12:00:00".

(** A history file whose first line names other columns. *)
Definition foreign_store : store :=
  Some [["date"; "shop"; "amount"];
        ["2023-12-31 12:00:00"; "Amazon India"; "9100.0"]]%string.

(** The open for appending fails; reading and rewriting work. *)
Definition append_fails : file_system :=
  {| read_raises := false; append_raises := true;
     rewrite_raises := false |}.

End Runs.

(* ===================================================================== *)
(** ** generate_summary_report *)

Module Summary.
Import PyText PyFloat Config Ledger PriceTracker.

(** [min(current_prices.values())], for values [x :: l]. *)
Definition min_value (x : pyfloat) (l : list pyfloat) : pyfloat :=
  py_min x l.

(** [min(current_prices, key=current_prices.get)]: the first site is kept
    until one with a strictly smaller price comes. *)
Definition min_item (x : string * pyfloat) (l : list (string * pyfloat))
  : string * pyfloat :=
  fold_left (fun best y => if flt (snd y) (snd best) then y else best) l x.

(** One step of a stable sort by price: [x], which came after every item
    of [l], goes before the first item it is strictly below. *)
Fixpoint insert_by_price (x : string * pyfloat)
    (l : list (string * pyfloat)) : list (string * pyfloat) :=
  match l with
  | [] => [x]
  | y :: l' =>
      if flt (snd x) (snd y) then x :: l else y :: insert_by_price x l'
  end.

(** [sorted(current_prices.items(), key=lambda x: x[1])].  Python's sort
    is stable and compares with [<] only; on prices without [nan], where
    [<] is a total order, this is its result. *)
Definition sorted_by_price (items : list (string * pyfloat))
  : list (string * pyfloat) :=
  fold_left (fun acc x => insert_by_price x acc) items [].

(** What the report prints, before formatting: the best price and its
    site, the historical low ([None] for "No previous data"), and the
    lines of the list, each with its mark ([true] for the fire, a price
    at or below the target). *)
Record summary : Type := {
  best_price : pyfloat;
  best_site : string;
  shown_low : option pyfloat;
  lines : list (bool * string * pyfloat)
}.

(** The method; [None] is the early return on an empty mapping, before
    the history is read. *)
Definition generate_summary_report (fs : file_system) (st : store)
    (current_prices : PyDict.dict pyfloat) : option summary :=
  match current_prices with
  | [] => None
  | x :: l =>
      let historical_data := get_historical_data fs st in
      Some {| best_price := min_value (snd x) (map snd l);
              best_site := fst (min_item x l);
              shown_low :=
                if fne (lowest_ever historical_data) PInf
                then Some (lowest_ever historical_data)
                else None;
              lines :=
                map (fun sp =>
                       (fle (snd sp) (of_int PRICE_THRESHOLD),
                        fst sp, snd sp))
                    (sorted_by_price current_prices) |}
  end.

End Summary.

(* ===================================================================== *)
(** ** setup_browser, cleanup and the browser over a session *)

Module Browser.
Import PyText PyFloat Config Ledger PriceTracker.

(** What happens to the browser, in order of time. *)
Inductive event : Type :=
| Launched                (* webdriver.Chrome(...) returned a driver *)
| LaunchFailed            (* it raised *)
| Visited (u : string)    (* driver.get(u) *)
| Quitted.                (* driver.quit() *)

(** The part of the tracker the browser methods touch: [self.driver]
    ([true] when it is not [None]), the number of launches tried, and the
    events so far, latest first. *)
Record tracker : Type := {
  driver : bool;
  attempts : nat;
  events : list event
}.

(** [__init__]: no driver. *)
Definition fresh : tracker :=
  {| driver := false; attempts := O; events := [] |}.

(** [setup_browser].  [chrome n] says whether the launch tried after [n]
    earlier ones succeeds.  The result is [true] when the method returns
    the driver, [false] when it raises. *)
Definition setup_browser (chrome : nat -> bool) (t : tracker)
  : bool * tracker :=
  if driver t then (true, t)
  else if chrome (attempts t)
       then (true, {| driver := true; attempts := S (attempts t);
                      events := Launched :: events t |})
       else (false, {| driver := false; attempts := S (attempts t);
                       events := LaunchFailed :: events t |}).

(** [scrape_price_dynamic], with the driver: a launch that raises is
    caught and the site is a miss; otherwise the page is visited and read
    as before. *)
Definition scrape_dynamic (chrome : nat -> bool) (w : web) (t : tracker)
    (site_name : string) (site_config : Config.site_config)
  : option pyfloat * tracker :=
  let (ok, t') := setup_browser chrome t in
  if ok
  then (scrape_price_dynamic w site_name site_config,
        {| driver := driver t'; attempts := attempts t';
           events := Visited (url site_config) :: events t' |})
  else (None, t').

(** One turn of the loop of [get_all_current_prices], with the driver. *)
Definition check_site (chrome : nat -> bool) (w : web)
    (acc : PyDict.dict pyfloat * tracker)
    (entry : string * Config.site_config) : PyDict.dict pyfloat * tracker :=
  let (current_prices, t) := acc in
  let (site_name, site_config) := entry in
  let (price, t') :=
    if String.eqb (method site_config) "static"
    then (scrape_price_static w site_name site_config, t)
    else scrape_dynamic chrome w t site_name site_config in
  match price_if_true price with
  | Some p => (PyDict.set site_name p current_prices, t')
  | None => (current_prices, t')
  end.

Definition get_prices_of (chrome : nat -> bool)
    (sites : PyDict.dict Config.site_config) (w : web) (t : tracker)
  : PyDict.dict pyfloat * tracker :=
  fold_left (check_site chrome w) sites ([], t).

(** [cleanup]: the driver is quit when there is one; the field is left
    as it is. *)
Definition cleanup (t : tracker) : tracker :=
  if driver t
  then {| driver := driver t; attempts := attempts t;
          events := Quitted :: events t |}
  else t.

(** The browser side of [main]: the prices are collected, then the
    [finally] runs [cleanup], on the early return too.  Saving, checking
    and reporting do not touch the driver. *)
Definition session_browser (chrome : nat -> bool) (w : web)
  : PyDict.dict pyfloat * tracker :=
  let (current_prices, t) := get_prices_of chrome WATCH_SITES w fresh in
  (current_prices, cleanup t).

(** The events in order of time. *)
Definition history (t : tracker) : list event := rev (events t).

(** The events so far, latest first: failed launches only while there is
    no driver; once there is one, a single launch after them and visits
    only since. *)
Definition browser_inv (t : tracker) : Prop :=
  if driver t
  then exists visits fails,
         events t = visits ++ Launched :: fails
         /\ Forall (fun e => exists u, e = Visited u) visits
         /\ Forall (eq LaunchFailed) fails
  else Forall (eq LaunchFailed) (events t).

End Browser.

(* ===================================================================== *)
(** ** More notions *)

Module Further.
Import PyText PyFloat Config Ledger PriceTracker Notions.

(** [min(prices) if prices else float('inf')]. *)
Definition lowest_of (prices : list pyfloat) : pyfloat :=
  match prices with
  | p :: ps => py_min p ps
  | [] => PInf
  end.

(** The prices the reader can take from the records. *)
Definition readable_prices (h : historical_data) : list pyfloat :=
  flat_map price_of_record (records h).



(** The item of the mapping an alert is about. *)
Definition alert_item (a : alert_info) : string * pyfloat :=
  (alert_site a, alert_price a).

(** Does the evaluator give a reason for this item? *)
Definition qualifies (h : historical_data) (item : string * pyfloat)
  : bool :=
  match alert_reasons (snd item) h with
  | [] => false
  | _ => true
  end.

(** Ascending by price. *)
Definition price_le (a b : string * pyfloat) : Prop :=
  fle (snd a) (snd b) = true.


(** The site and the price of a line of the report. *)
Definition line_item (line : bool * string * pyfloat) : string * pyfloat :=
  (snd (fst line), snd line).

(** The sites that are scraped with the browser. *)
Definition uses_browser (entry : string * Config.site_config) : bool :=
  negb (String.eqb (method (snd entry)) "static").

End Further.

Import PyText PyFloat Config Ledger PriceTracker Notions Runs.

(* ===================================================================== *)
(** ** Tactics *)

(** Case analysis over the 256 characters. *)
Ltac each_char c :=
  destruct c as [[] [] [] [] [] [] [] []]; vm_compute in *;
  try discriminate; try reflexivity; auto.

(** Two different string constants are not equal. *)
Ltac strings_differ H :=
  apply (proj2 (String.eqb_eq _ _)) in H; vm_compute in H; discriminate H.

Ltac not_among :=
  cbn; intro;
  repeat match goal with
         | H : _ \/ _ |- _ => destruct H as [H|H]
         | H : False |- _ => contradiction
         | H : @eq string _ _ |- _ => strings_differ H
         end.

(* ===================================================================== *)
(** ** Lemmas *)

(** ** Characters *)


Lemma digit_not_space c : is_digit c = true -> is_space c = false.
Proof. intro H. each_char c. Qed.

Lemma digit_not_dot c : is_digit c = true -> Ascii.eqb c "." = false.
Proof. intro H. each_char c. Qed.

Lemma digit_not_underscore c : is_digit c = true -> Ascii.eqb c "_" = false.
Proof. intro H. each_char c. Qed.

Lemma digit_not_sign c :
  is_digit c = true -> Ascii.eqb c "-" = false /\ Ascii.eqb c "+" = false.
Proof. intro H. split; each_char c. Qed.

Lemma digit_lower c : is_digit c = true -> lower_char c = c.
Proof. intro H. each_char c. Qed.

Lemma digit_not_letter c :
  is_digit c = true -> Ascii.eqb c "i" = false /\ Ascii.eqb c "n" = false.
Proof. intro H. split; each_char c. Qed.




(** ** Digits and their value *)












(** ** Order on floats *)

Lemma pow10_pos e : 0 < pow10 e.
Proof. unfold pow10. apply Z.pow_pos_nonneg; lia. Qed.

Lemma pow10_succ e : pow10 (S e) = 10 * pow10 e.
Proof. unfold pow10. rewrite Nat2Z.inj_succ, Z.pow_succ_r; lia. Qed.

Lemma pow10_add a b : pow10 (a + b) = pow10 a * pow10 b.
Proof. unfold pow10. rewrite Nat2Z.inj_add, Z.pow_add_r; lia. Qed.

Lemma flt_irrefl a : flt a a = false.
Proof. destruct a; simpl; auto. apply Z.ltb_irrefl. Qed.

Lemma flt_trans a b c : flt a b = true -> flt b c = true -> flt a c = true.
Proof.
  destruct a as [m1 e1| | |], b as [m2 e2| | |], c as [m3 e3| | |];
    simpl; try discriminate; auto.
  rewrite !Z.ltb_lt. intros H1 H2.
  pose proof (pow10_pos e1). pose proof (pow10_pos e2).
  pose proof (pow10_pos e3).
  apply Z.mul_lt_mono_pos_r with (p := pow10 e2); [assumption|].
  apply Z.lt_trans with (m2 * pow10 e1 * pow10 e3).
  - replace (m1 * pow10 e3 * pow10 e2) with (m1 * pow10 e2 * pow10 e3) by ring.
    apply Z.mul_lt_mono_pos_r; assumption.
  - replace (m2 * pow10 e1 * pow10 e3) with (m2 * pow10 e3 * pow10 e1) by ring.
    replace (m3 * pow10 e1 * pow10 e2) with (m3 * pow10 e2 * pow10 e1) by ring.
    apply Z.mul_lt_mono_pos_r; assumption.
Qed.

(** [min] returns an item no item of the list is below. *)
Lemma py_min_fold l : forall x seen,
  (forall y, In y seen -> flt y x = false) ->
  forall y, In y (seen ++ l) ->
  flt y (fold_left (fun acc z => if flt z acc then z else acc) l x) = false.
Proof.
  induction l as [|z l IH]; intros x seen Hseen y Hy.
  - rewrite app_nil_r in Hy. simpl. auto.
  - cbn [fold_left].
    apply (IH _ (seen ++ [z])).
    + intros u Hu. apply in_app_or in Hu.
      destruct Hu as [Hu|[Hu|[]]].
      * destruct (flt z x) eqn:E; [|auto].
        destruct (flt u z) eqn:E'; [|reflexivity].
        rewrite <- (Hseen u Hu). symmetry. eapply flt_trans; eassumption.
      * subst u. destruct (flt z x) eqn:E; [apply flt_irrefl|exact E].
    + rewrite <- app_assoc. exact Hy.
Qed.

(** [min] returns an item no item of the list is below. *)
Lemma py_min_least l x y : In y (x :: l) -> flt y (py_min x l) = false.
Proof.
  intro Hy. unfold py_min.
  apply (py_min_fold l x [x]).
  - intros u [<-|[]]. apply flt_irrefl.
  - exact Hy.
Qed.

(** ** norm *)

Lemma norm_fin m : forall e, exists m' e',
  norm m e = Fin m' e' /\ norm m' e' = Fin m' e' /\ (0 <= m -> 0 <= m')
  /\ m * pow10 e' = m' * pow10 e.
Proof.
  intro e. revert m.
  induction e as [|e IH]; intro m.
  - exists m, O. simpl. repeat split; auto.
  - cbn [norm]. destruct (m mod 10 =? 0) eqn:E.
    + destruct (IH (m / 10)) as (m' & e' & H1 & H2 & H3 & H4).
      exists m', e'. repeat split; auto.
      * intro Hm. apply H3. apply Z.div_pos; lia.
      * apply Z.eqb_eq in E. rewrite pow10_succ.
        pose proof (Z.div_mod m 10 ltac:(lia)) as D.
        rewrite E in D. rewrite D at 1.
        replace (10 * (m / 10) + 0) with (10 * (m / 10)) by lia.
        rewrite <- Z.mul_assoc, H4. ring.
    + exists m, (S e). cbn [norm]. rewrite E. repeat split; auto.
Qed.

Lemma norm_price_like m e : 0 <= m -> price_like (norm m e).
Proof.
  intro Hm. destruct (norm_fin m e) as (m' & e' & H1 & H2 & H3 & _).
  exists m', e'. rewrite H1. auto.
Qed.


(** ** Reading a token with [float] *)

Lemma lstrip_id s : Forall (fun c => is_space c = false) s -> lstrip s = s.
Proof. destruct 1 as [|c s Hc _]; simpl; [reflexivity|now rewrite Hc]. Qed.

Lemma strip_id s : Forall (fun c => is_space c = false) s -> strip s = s.
Proof.
  intro H. unfold strip, rstrip. rewrite (lstrip_id s H).
  rewrite lstrip_id; [apply rev_involutive|].
  apply Forall_rev. exact H.
Qed.

Lemma digits_no_space ds :
  all_digits ds -> Forall (fun c => is_space c = false) ds.
Proof.
  intro H. eapply Forall_impl; [|exact H]. apply digit_not_space.
Qed.

Lemma digitpart_step c s :
  is_digit c = true ->
  starts_without (fun u => Ascii.eqb u "_") s ->
  digitpart (c :: s) = let (d, r) := digitpart s in (c :: d, r).
Proof.
  intros Hc Hs. destruct s as [|u [|c2 t]]; cbn [digitpart]; rewrite Hc;
    try reflexivity.
  simpl in Hs. rewrite Hs. reflexivity.
Qed.

Lemma digitpart_digits ds : forall rest,
  all_digits ds ->
  starts_without (fun c => is_digit c || Ascii.eqb c "_") rest ->
  digitpart (ds ++ rest) = (ds, rest).
Proof.
  induction ds as [|c ds IH]; intros rest Hds Hrest.
  - destruct rest as [|u r]; [reflexivity|].
    simpl in Hrest. apply orb_false_elim in Hrest. destruct Hrest as [Hu _].
    destruct r; simpl; rewrite Hu; reflexivity.
  - inversion Hds as [|? ? Hc Hds']; subst.
    cbn [app]. rewrite digitpart_step; [rewrite IH; auto| exact Hc |].
    destruct ds as [|c' ds]; cbn [app].
    + destruct rest; simpl in *; [exact I|].
      apply orb_false_elim in Hrest. tauto.
    + simpl. inversion Hds'; subst. now apply digit_not_underscore.
Qed.

Lemma digitpart_all ds : all_digits ds -> digitpart ds = (ds, []).
Proof.
  intro H. rewrite <- (app_nil_r ds) at 1.
  apply digitpart_digits; [exact H|exact I].
Qed.

Lemma split_sign_digit c r :
  is_digit c = true -> split_sign (c :: r) = (false, c :: r).
Proof.
  intro H. destruct (digit_not_sign c H) as [H1 H2].
  unfold split_sign. rewrite H1, H2. reflexivity.
Qed.

Lemma parse_special_digit c r :
  is_digit c = true -> parse_special (c :: r) = None.
Proof.
  intro H. destruct (digit_not_letter c H) as [H1 H2].
  unfold parse_special. cbn [lower map]. rewrite (digit_lower c H).
  cbn [of_string list_ascii_of_string chars_eqb]. rewrite H1, H2.
  reflexivity.
Qed.

Lemma parse_integer ip :
  all_digits ip -> ip <> [] ->
  parse_floatnumber ip = Some (Fin (Z.of_N (digits_value ip)) 0).
Proof.
  intros Hip Hne. unfold parse_floatnumber.
  rewrite (digitpart_all ip Hip). rewrite app_nil_r.
  destruct ip as [|c ip]; [contradiction|].
  cbn [parse_exponent List.length Z.of_nat].
  change (0 - 0 <=? 0) with true. cbn iota. cbn [norm].
  f_equal. f_equal. change (10 ^ (- (0 - 0))) with 1. lia.
Qed.

Lemma parse_decimal ip fp :
  all_digits ip -> ip <> [] -> all_digits fp ->
  parse_floatnumber (ip ++ "."%char :: fp)
  = Some (norm (Z.of_N (digits_value (ip ++ fp))) (List.length fp)).
Proof.
  intros Hip Hne Hfp. unfold parse_floatnumber.
  rewrite (digitpart_digits ip ("."%char :: fp) Hip) by reflexivity.
  change (Ascii.eqb "." ".") with true. cbn iota.
  rewrite (digitpart_all fp Hfp).
  destruct (ip ++ fp) as [|c l] eqn:E.
  { destruct ip; [contradiction|discriminate]. }
  cbn [parse_exponent]. rewrite Z.sub_0_r.
  destruct fp as [|d fp].
  - cbn [List.length Z.of_nat].
    change (0 <=? 0) with true. cbn iota. cbn [norm].
    f_equal. f_equal. change (10 ^ (- 0)) with 1. lia.
  - replace (Z.of_nat (List.length (d :: fp)) <=? 0) with false
      by (symmetry; apply Z.leb_gt; cbn [List.length]; lia).
    rewrite Nat2Z.id. reflexivity.
Qed.

Lemma float_of_digits_headed c r :
  is_digit c = true ->
  Forall (fun c => is_space c = false) (c :: r) ->
  float_of_chars (c :: r) = parse_floatnumber (c :: r).
Proof.
  intros Hc Hs. unfold float_of_chars.
  rewrite (strip_id _ Hs), (split_sign_digit c r Hc).
  rewrite (parse_special_digit c r Hc).
  destruct (parse_floatnumber (c :: r)); reflexivity.
Qed.

(** [float] reads every token, and reads the number it writes. *)
Lemma float_of_token ip fp :
  all_digits ip -> ip <> [] ->
  match fp with Some l => all_digits l | None => True end ->
  float_of_chars (token_text ip fp) = Some (token_value ip fp).
Proof.
  intros Hip Hne Hfp.
  destruct ip as [|c ip]; [contradiction|].
  assert (Hc : is_digit c = true) by (inversion Hip; assumption).
  destruct fp as [fp|]; cbn [token_text token_value].
  - change ((c :: ip) ++ "."%char :: fp) with (c :: (ip ++ "."%char :: fp)).
    rewrite float_of_digits_headed; [| exact Hc |].
    + apply (parse_decimal (c :: ip) fp); auto.
    + change (c :: ip ++ "."%char :: fp) with ((c :: ip) ++ "."%char :: fp).
      apply Forall_app; split; [now apply digits_no_space|].
      constructor; [reflexivity|now apply digits_no_space].
  - rewrite float_of_digits_headed;
      [apply parse_integer; auto | exact Hc | now apply digits_no_space].
Qed.

Lemma token_value_price_like ip fp : price_like (token_value ip fp).
Proof.
  destruct fp as [fp|]; cbn [token_value].
  - apply norm_price_like. lia.
  - exists (Z.of_N (digits_value ip)), O. repeat split; lia.
Qed.


(** ** The first number of a text *)

Lemma span_digits_spec s :
  s = fst (span_digits s) ++ snd (span_digits s)
  /\ all_digits (fst (span_digits s))
  /\ starts_without is_digit (snd (span_digits s)).
Proof.
  induction s as [|c s (IH1 & IH2 & IH3)]; cbn [span_digits].
  - repeat split. constructor.
  - destruct (is_digit c) eqn:Hc.
    + destruct (span_digits s) as [d r]. cbn [fst snd] in *.
      repeat split; [now rewrite IH1 at 1 | now constructor | assumption].
    + cbn [fst snd]. repeat split; [constructor | exact Hc].
Qed.



Lemma first_number_head c s :
  is_digit c = true ->
  first_number (c :: s) =
    let (ip, r) := span_digits (c :: s) in
    match r with
    | dot :: r' =>
        if Ascii.eqb dot "."
        then let (fp, _) := span_digits r' in Some (ip ++ "."%char :: fp)
        else Some ip
    | [] => Some ip
    end.
Proof. intro Hc. cbn [first_number]. now rewrite Hc. Qed.


(** Whatever [first_number] finds is a token of the text. *)
Lemma first_number_some s : forall tok,
  first_number s = Some tok ->
  exists ip fp, first_token s ip fp /\ tok = token_text ip fp.
Proof.
  induction s as [|c s IH]; intros tok H; [discriminate|].
  destruct (is_digit c) eqn:Hc.
  - rewrite (first_number_head c s Hc) in H.
    destruct (span_digits_spec (c :: s)) as (E & Hip & Hr).
    destruct (span_digits (c :: s)) as [ip r]. cbn [fst snd] in *.
    assert (Hne : ip <> []).
    { intros ->. cbn [app] in E. subst r. simpl in Hr. congruence. }
    destruct r as [|dot r'].
    + injection H as <-. exists ip, None. split; [|reflexivity].
      apply (token_integer _ [] ip []); auto; constructor.
    + destruct (Ascii.eqb dot ".") eqn:Hdot.
      * apply Ascii.eqb_eq in Hdot. subst dot.
        destruct (span_digits_spec r') as (E' & Hfp & Hr').
        destruct (span_digits r') as [fp rest]. cbn [fst snd] in *.
        injection H as <-. exists ip, (Some fp). split; [|reflexivity].
        apply (token_decimal _ [] ip fp rest); auto; [|constructor].
        cbn [app]. rewrite E. now rewrite E' at 1.
      * injection H as <-. exists ip, None. split; [|reflexivity].
        apply (token_integer _ [] ip (dot :: r')); auto; [constructor|].
        simpl in *. now rewrite Hr, Hdot.
  - cbn [first_number] in H. rewrite Hc in H.
    destruct (IH tok H) as (ip & fp & Ht & ->).
    exists ip, fp. split; [|reflexivity].
    destruct Ht as [pre ip rest -> Hpre Hip Hne Hrest
                   |pre ip fp rest -> Hpre Hip Hne Hfp Hrest].
    + apply (token_integer _ (c :: pre) ip rest); auto. now constructor.
    + apply (token_decimal _ (c :: pre) ip fp rest); auto. now constructor.
Qed.


Lemma first_token_fp s ip fp :
  first_token s ip fp ->
  all_digits ip /\ ip <> []
  /\ match fp with Some l => all_digits l | None => True end.
Proof. destruct 1; auto. Qed.

(** ** extract_price_from_text *)


Lemma extract_some pt p :
  extract_price_from_text pt = Some p -> price_like p.
Proof.
  unfold extract_price_from_text, extract_price_from_text_run.
  destruct pt as [[|a t]|]; cbn [fst]; try discriminate.
  destruct (first_number (clean_text (String a t))) as [tok|] eqn:E;
    [|discriminate].
  destruct (first_number_some _ _ E) as (ip & fp & Ht & ->).
  destruct (first_token_fp _ _ _ Ht) as (Hip & Hn & Hfp).
  rewrite (float_of_token ip fp Hip Hn Hfp).
  intro H.
  assert (p = token_value ip fp).
  { destruct (fle (of_int 5000) (token_value ip fp)
              && fle (token_value ip fp) (of_int 15000));
      cbn [fst] in H; congruence. }
  subst p. apply token_value_price_like.
Qed.


(** ** Writing a price and reading it back *)






(** ** The scrapers and the collector *)

Lemma price_if_true_some x p :
  price_if_true x = Some p -> x = Some p /\ truthy p = true.
Proof.
  destruct x as [q|]; cbn [price_if_true]; [|discriminate].
  destruct (truthy q) eqn:E; [|discriminate].
  intro H. injection H as <-. auto.
Qed.

Lemma price_if_true_twice x : price_if_true (price_if_true x) = price_if_true x.
Proof.
  destruct x as [q|]; cbn [price_if_true]; [|reflexivity].
  destruct (truthy q) eqn:E; cbn [price_if_true]; [now rewrite E|reflexivity].
Qed.

(** Both scrapers end in the same test of the extracted price. *)
Lemma scrape_site_shape w name cfg :
  scrape_site w name cfg = None
  \/ exists text,
       scrape_site w name cfg
       = price_if_true (extract_price_from_text (Some text)).
Proof.
  unfold scrape_site, scrape_price_static, scrape_price_dynamic.
  destruct (String.eqb (method cfg) "static");
    (destruct (w (url cfg)) as [|sel]; [now left|]);
    (destruct (sel (price_selector cfg)) as [t|]; [right; now exists t|]);
    (destruct (negb _); [|now left]);
    (destruct (sel _) as [t|]; [right; now exists t|now left]).
Qed.

Lemma scrape_site_some w name cfg p :
  scrape_site w name cfg = Some p -> truthy p = true /\ price_like p.
Proof.
  intro H. destruct (scrape_site_shape w name cfg) as [E|(t & E)];
    rewrite E in H; [discriminate|].
  apply price_if_true_some in H. destruct H as [H1 H2].
  split; [exact H2|eapply extract_some; exact H1].
Qed.

Lemma scrape_site_twice w name cfg :
  price_if_true (scrape_site w name cfg) = scrape_site w name cfg.
Proof.
  destruct (scrape_site_shape w name cfg) as [E|(t & E)]; rewrite E;
    [reflexivity|apply price_if_true_twice].
Qed.

Lemma check_site_entry w acc entry :
  check_site w acc entry =
    match scrape_site w (fst entry) (snd entry) with
    | Some p => PyDict.set (fst entry) p acc
    | None => acc
    end.
Proof.
  destruct entry as [name cfg]. cbn [fst snd].
  pose proof (scrape_site_twice w name cfg) as H.
  unfold check_site. fold (scrape_site w name cfg). now rewrite H.
Qed.

Lemma set_new {V} k (v : V) d :
  ~ In k (PyDict.keys d) -> PyDict.set k v d = d ++ [(k, v)].
Proof.
  induction d as [|[k' v'] d IH]; intro H; [reflexivity|].
  cbn [PyDict.set]. destruct (String.eqb k k') eqn:E.
  - apply String.eqb_eq in E. subst. exfalso. apply H. now left.
  - cbn [app]. f_equal. apply IH. intro Hk. apply H. now right.
Qed.

(** Over sites with distinct names, the loop adds the entries in order. *)
Lemma collect_fold w sites : forall acc,
  NoDup (PyDict.keys acc ++ PyDict.keys sites) ->
  fold_left (check_site w) sites acc = acc ++ flat_map (site_entry w) sites.
Proof.
  induction sites as [|[name cfg] sites IH]; intros acc Hnd.
  - simpl. now rewrite app_nil_r.
  - cbn [fold_left flat_map]. rewrite check_site_entry.
    cbn [fst snd].
    change (site_entry w (name, cfg))
      with (match scrape_site w name cfg with
            | Some p => [(name, p)]
            | None => []
            end).
    cbn [PyDict.keys map fst] in Hnd.
    destruct (scrape_site w name cfg) as [p|].
    + rewrite set_new.
      * rewrite IH; [now rewrite <- app_assoc|].
        unfold PyDict.keys. rewrite map_app. cbn [map fst].
        rewrite <- app_assoc. exact Hnd.
      * apply NoDup_remove_2 in Hnd. intro Hk. apply Hnd.
        apply in_or_app. now left.
    + cbn [app]. apply IH. apply NoDup_remove_1 in Hnd. exact Hnd.
Qed.

Lemma watch_sites_distinct : NoDup (PyDict.keys WATCH_SITES).
Proof.
  cbn. repeat (constructor; [not_among|]). constructor.
Qed.

Lemma collect_entries w :
  get_all_current_prices w = flat_map (site_entry w) WATCH_SITES.
Proof.
  unfold get_all_current_prices, get_prices_of.
  rewrite collect_fold; [reflexivity|]. apply watch_sites_distinct.
Qed.

(** A price in the mapping was scraped from a configured site. *)
Lemma collected_price w name p :
  In (name, p) (get_all_current_prices w) ->
  exists cfg, In (name, cfg) WATCH_SITES /\ scrape_site w name cfg = Some p.
Proof.
  rewrite collect_entries. intro H. apply in_flat_map in H.
  destruct H as ([n cfg] & Hin & H). unfold site_entry in H. cbn [fst snd] in H.
  destruct (scrape_site w n cfg) as [q|] eqn:E; [|contradiction].
  destruct H as [H|[]]. injection H as -> ->. eauto.
Qed.


(** ** The history file *)






(** ** The evaluator *)





(* ===================================================================== *)
(** ** The claims *)

Local Open Scope string_scope.

(** *** C2 *)

(** C2, as the code has it.  With the threshold 7500, a historical lowest
    of 8000 and a price of 7000, the evaluator gives three reasons, in
    this order: at/below target, new historical low, significant drop.
    The third is there because 7000 is below nine tenths of 8000. *)
Theorem C2_reasons_at_7000 h :
  lowest_ever h = of_int 8000 ->
  alert_reasons (of_int 7000) h = [reason_target; reason_low; reason_drop].
Proof.
  intro H. unfold alert_reasons. rewrite H. reflexivity.
Qed.

Lemma C2_stats_with_8000 :
  lowest_ever (stats_with (of_int 8000)) = of_int 8000
  /\ alert_reasons (of_int 7000) (stats_with (of_int 8000))
     = [reason_target; reason_low; reason_drop].
Proof.
  split; [reflexivity|].
  apply (C2_reasons_at_7000 (stats_with (of_int 8000))). reflexivity.
Defined.

(** C2 as the spec words it fails: the list is not the two reasons alone. *)
Lemma C2_not_two_reasons :
  ~ (forall h, lowest_ever h = of_int 8000 ->
       alert_reasons (of_int 7000) h = [reason_target; reason_low]).
Proof.
  intro H. specialize (H (stats_with (of_int 8000)) eq_refl).
  vm_compute in H. discriminate H.
Qed.

(** *** C9 *)

Lemma reasons_differ :
  reason_low <> reason_target /\ reason_low <> reason_drop.
Proof. split; intro H; strings_differ H. Qed.

(** C9, as the code has it.  The reason "new historical low" is given
    exactly when the price is below [lowest_ever]; the value for "no
    data" is [inf], so on an empty history every finite price gets it. *)
Theorem C9_new_low_iff_below price h :
  In reason_low (alert_reasons price h) <-> flt price (lowest_ever h) = true.
Proof.
  destruct reasons_differ as [D1 D2].
  unfold alert_reasons. rewrite !in_app_iff. split.
  - intros [H|[H|H]].
    + destruct (fle price (of_int PRICE_THRESHOLD)); [|contradiction].
      destruct H as [H|[]]. symmetry in H. contradiction.
    + destruct (flt price (lowest_ever h)); [reflexivity|contradiction].
    + destruct (fne (lowest_ever h) PInf); [|contradiction].
      destruct (flt price (fmul (lowest_ever h) (Fin 9 1))); [|contradiction].
      destruct H as [H|[]]. symmetry in H. contradiction.
  - intros ->. right. left. now left.
Qed.

Lemma C9_new_low_on_empty_history :
  flt (of_int 8000) (lowest_ever no_data) = true
  /\ In reason_low (alert_reasons (of_int 8000) no_data).
Proof.
  split; [reflexivity|].
  apply (proj2 (C9_new_low_iff_below (of_int 8000) no_data)). reflexivity.
Defined.

(** C9 as the spec words it fails: the reason is given although
    [lowest_ever] is the "no data" value. *)
Lemma C9_fires_without_data :
  ~ (forall price h,
       In reason_low (alert_reasons price h) ->
       lowest_ever h <> PInf /\ flt price (lowest_ever h) = true).
Proof.
  intro H.
  destruct (H (of_int 8000) no_data) as [Hinf _].
  - vm_compute. auto.
  - apply Hinf. reflexivity.
Qed.

(** *** C3 *)

(** C3, as the code has it.  The mapping holds an entry for exactly the
    sites whose scrape gave a price, in the order of the configuration;
    a site that misses adds nothing, and when every site misses the
    mapping is empty. *)
Theorem C3_mapping_of_prices w :
  get_all_current_prices w = flat_map (site_entry w) WATCH_SITES
  /\ get_all_current_prices web_down = [].
Proof.
  split; [apply collect_entries|reflexivity].
Qed.

(** C3 as the spec words it fails: the mapping does not cover the sites. *)
Lemma C3_misses_are_left_out :
  ~ (forall w,
       PyDict.keys (get_all_current_prices w) = PyDict.keys WATCH_SITES).
Proof.
  intro H. specialize (H web_down). vm_compute in H. discriminate H.
Qed.

(** *** C10 *)

(** C10.  The text "₹0.00" normalizes to the number zero; a price in the
    collector's mapping is never zero, and when every site shows
    "₹0.00" the mapping is empty. *)
Theorem C10_no_zero_price w :
  (forall name p, In (name, p) (get_all_current_prices w) ->
                  feq p (of_int 0) = false)
  /\ extract_price_from_text (Some "₹0.00") = Some (of_int 0)
  /\ get_all_current_prices (web_showing "₹0.00") = [].
Proof.
  split; [|split; reflexivity].
  intros name p H.
  destruct (collected_price w name p H) as (cfg & _ & Hs).
  destruct (scrape_site_some w name cfg p Hs) as [Ht _].
  unfold truthy, fne in Ht. apply negb_true_iff in Ht. exact Ht.
Qed.

Lemma C10_casio_8999 :
  In ("Casio Official", of_int 8999)
     (get_all_current_prices (web_casio "₹8,999.00"))
  /\ feq (of_int 8999) (of_int 0) = false.
Proof.
  assert (H : In ("Casio Official", of_int 8999)
                 (get_all_current_prices (web_casio "₹8,999.00")))
    by (vm_compute; auto).
  split; [exact H|].
  exact (proj1 (C10_no_zero_price (web_casio "₹8,999.00")) _ _ H).
Defined.


(** *** C4 *)

(** C4.  [get_historical_data] returns the "no data" answer, lowest price
    [inf] and no records, when the file is absent, when it is empty, when
    its first line lacks one of the columns [timestamp], [site], [price],
    and also when reading it raises; it never raises itself. *)
Theorem C4_degraded_store_no_data fs st :
  st = None \/ st = Some [] \/ read_raises fs = true
  \/ (exists names rows col,
        st = Some (names :: rows)
        /\ In col required_columns /\ mem col names = false) ->
  get_historical_data fs st = no_data
  /\ lowest_ever no_data = PInf /\ records no_data = [].
Proof.
  intro H. split; [|split; reflexivity].
  destruct H as [->|[->|[Hr|(names & rows & col & -> & Hcol & Hmem)]]];
    try reflexivity.
  - unfold get_historical_data. rewrite Hr.
    destruct (negb (exists_ st) || (getsize st =? 0)%nat); reflexivity.
  - unfold get_historical_data.
    cbn [exists_ negb getsize List.length Nat.eqb orb reader_fieldnames].
    destruct (read_raises fs); [reflexivity|].
    assert (Hf : In col (filter (fun c => negb (mem c names))
                           required_columns)).
    { apply filter_In. split; [exact Hcol|]. now rewrite Hmem. }
    destruct (filter _ required_columns); [contradiction|reflexivity].
Qed.

Lemma C4_file_without_price_column :
  (exists names rows col,
      Some [["timestamp"; "site"]; ["2024-01-01 12:00:00"; "Ajio"]]
      = Some (names :: rows)
      /\ In col required_columns /\ mem col names = false)
  /\ get_historical_data healthy
       (Some [["timestamp"; "site"]; ["2024-01-01 12:00:00"; "Ajio"]])
     = no_data.
Proof.
  assert (H : exists names rows col,
             Some [["timestamp"; "site"]; ["2024-01-01 12:00:00"; "Ajio"]]
             = Some (names :: rows)
             /\ In col required_columns /\ mem col names = false).
  { exists ["timestamp"; "site"], [["2024-01-01 12:00:00"; "Ajio"]], "price".
    split; [reflexivity|]. split; [|reflexivity]. right. right. now left. }
  split; [exact H|].
  exact (proj1 (C4_degraded_store_no_data healthy _
                  (or_intror (or_intror (or_intror H))))).
Defined.

(** *** C5 *)



(** *** C6 *)




(** A blank text takes the path of the missing number, not that of the
    empty input. *)
Example blank_text_is_scanned :
  extract_price_from_text_run (Some "   ")
  = (None, [(WARNING, "No valid price found in text: '   '")]).
Proof. reflexivity. Qed.


(** *** C7 *)



(** *** C8 *)




(** The file stays unreadable for the statistics after such a save. *)
Example foreign_store_stays_degraded :
  get_historical_data healthy
    (save_price_data healthy foreign_store noon
       [("Casio Official", of_int 8999)])
  = no_data.
Proof. reflexivity. Qed.


(** *** C1 *)




(** In that session an alert is sent, for the target. *)
Example target_alert_is_sent :
  map reason (alerts (main (web_casio "₹7,499") healthy None noon))
  = [reason_target].
Proof. reflexivity. Qed.


(* ===================================================================== *)
(** ** Further properties *)

Import Summary Further.

(** *** The history file *)

(** The statistics of any file: the lowest is the minimum of the prices
    the records give. *)
Lemma stats_shape fs st :
  lowest_ever (get_historical_data fs st)
  = lowest_of (readable_prices (get_historical_data fs st)).
Proof.
  unfold get_historical_data, readable_prices.
  destruct (negb (exists_ st) || (getsize st =? 0)%nat); [reflexivity|].
  destruct (read_raises fs); [reflexivity|].
  destruct (reader_fieldnames _); [|reflexivity].
  destruct (filter _ required_columns); [|reflexivity].
  destruct (reader_records _); reflexivity.
Qed.

Lemma py_min_in x l : In (py_min x l) (x :: l).
Proof.
  unfold py_min. revert x.
  induction l as [|y l IH]; intro x; [now left|].
  cbn [fold_left].
  destruct (IH (if flt y x then y else x)) as [H|H].
  - destruct (flt y x); rewrite <- H; [right; now left|now left].
  - right. now right.
Qed.

(** X1.  Whatever the file, the lowest price the statistics report is
    the "no data" value or one of the prices read from the records, and
    no price read from the records is below it. *)
Theorem lowest_ever_is_a_minimum fs st :
  let h := get_historical_data fs st in
  (readable_prices h = [] /\ lowest_ever h = PInf
   \/ In (lowest_ever h) (readable_prices h))
  /\ Forall (fun p => flt p (lowest_ever h) = false) (readable_prices h).
Proof.
  intro h. subst h. rewrite stats_shape.
  destruct (readable_prices (get_historical_data fs st)) as [|p ps].
  - split; [left; split; reflexivity|constructor].
  - cbn [lowest_of]. split; [right; apply py_min_in|].
    apply Forall_forall. intros q Hq. now apply py_min_least.
Qed.



Lemma price_row_kept now h entry :
  (fun r : row => match r with [] => false | _ => true end)
    (price_row now h entry) = true.
Proof. destruct entry. reflexivity. Qed.















(** X5.  A save whose open for appending raises changes nothing in a
    file that begins with the header: the handler rewrites the header
    only over a first line that lacks it, and a file that is not there
    is not created. *)
Theorem failed_save_keeps_the_rows fs rows now prices :
  append_raises fs = true ->
  save_price_data fs (Some (fieldnames :: rows)) now prices
  = Some (fieldnames :: rows)
  /\ save_price_data fs None now prices = None.
Proof.
  intro Ha. unfold save_price_data. rewrite Ha. split; [|reflexivity].
  unfold repair_headers. destruct (read_raises fs); reflexivity.
Qed.

Lemma failed_save_keeps_one_row :
  append_raises append_fails = true
  /\ save_price_data append_fails
       (Some [fieldnames;
              ["2023-12-31 12:00:00"; "Ajio"; "9500.0"; "True"; "False"]])
       noon [("Flipkart", of_int 8000)]
     = Some [fieldnames;
             ["2023-12-31 12:00:00"; "Ajio"; "9500.0"; "True"; "False"]].
Proof.
  split; [reflexivity|].
  exact (proj1 (failed_save_keeps_the_rows append_fails
                  [["2023-12-31 12:00:00"; "Ajio"; "9500.0";
                    "True"; "False"]]
                  noon [("Flipkart", of_int 8000)] eq_refl)).
Defined.


(** *** The evaluator *)

Lemma drop_is_below_lowest p low :
  price_like p ->
  fne low PInf = true -> flt p (fmul low (Fin 9 1)) = true ->
  flt p low = true.
Proof.
  intros (m & e & -> & Hm & _) _ H.
  destruct low as [ml el| | |]; cbn in *; try discriminate; auto.
  apply Z.ltb_lt in H. apply Z.ltb_lt.
  rewrite pow10_add in H. change (pow10 1) with 10 in H.
  pose proof (pow10_pos e). pose proof (pow10_pos el).
  assert (0 <= m * pow10 el) by (apply Z.mul_nonneg_nonneg; lia).
  destruct (Z.le_gt_cases ml 0) as [Hml|Hml].
  - assert (ml * pow10 e <= 0) by (apply Z.mul_nonpos_nonneg; lia). nia.
  - assert (0 < ml * pow10 e) by (apply Z.mul_pos_pos; lia). nia.
Qed.

(** X6.  For a price a scrape can give (finite, not negative), the
    reasons come in one of six lists: a "significant drop" is never given
    without "new historical low", and the order is target, low, drop. *)
Theorem reasons_come_in_six_lists p h :
  price_like p ->
  In (alert_reasons p h)
     [[]; [reason_target]; [reason_low]; [reason_target; reason_low];
      [reason_low; reason_drop]; [reason_target; reason_low; reason_drop]].
Proof.
  intro Hp. unfold alert_reasons.
  destruct (fne (lowest_ever h) PInf) eqn:Hinf;
    [destruct (flt p (fmul (lowest_ever h) (Fin 9 1))) eqn:Hdrop|].
  - rewrite (drop_is_below_lowest p _ Hp Hinf Hdrop).
    destruct (fle p (of_int PRICE_THRESHOLD)); cbn; auto 10.
  - destruct (fle p (of_int PRICE_THRESHOLD)), (flt p (lowest_ever h));
      cbn; auto 10.
  - destruct (fle p (of_int PRICE_THRESHOLD)), (flt p (lowest_ever h));
      cbn; auto 10.
Qed.

Lemma reasons_of_6500_over_8000 :
  price_like (of_int 6500)
  /\ In (alert_reasons (of_int 6500) (stats_with (of_int 8000)))
        [[]; [reason_target]; [reason_low]; [reason_target; reason_low];
         [reason_low; reason_drop];
         [reason_target; reason_low; reason_drop]].
Proof.
  assert (H : price_like (of_int 6500))
    by (exists 6500%Z, O; repeat split; lia).
  split; [exact H|].
  exact (reasons_come_in_six_lists (of_int 6500)
           (stats_with (of_int 8000)) H).
Defined.

Lemma fle_flt_trans a b c :
  fle a b = true -> flt b c = true -> flt a c = true.
Proof.
  destruct a as [m1 e1| | |], b as [m2 e2| | |], c as [m3 e3| | |];
    simpl; try discriminate; auto.
  rewrite Z.leb_le, !Z.ltb_lt. intros H1 H2.
  pose proof (pow10_pos e1). pose proof (pow10_pos e2).
  pose proof (pow10_pos e3).
  apply Z.mul_lt_mono_pos_r with (p := pow10 e2); [assumption|].
  apply Z.le_lt_trans with (m2 * pow10 e1 * pow10 e3).
  - replace (m1 * pow10 e3 * pow10 e2) with (m1 * pow10 e2 * pow10 e3) by ring.
    apply Z.mul_le_mono_nonneg_r; lia.
  - replace (m2 * pow10 e1 * pow10 e3) with (m2 * pow10 e3 * pow10 e1) by ring.
    replace (m3 * pow10 e1 * pow10 e2) with (m3 * pow10 e2 * pow10 e1) by ring.
    apply Z.mul_lt_mono_pos_r; assumption.
Qed.

Lemma fle_trans a b c :
  fle a b = true -> fle b c = true -> fle a c = true.
Proof.
  destruct a as [m1 e1| | |], b as [m2 e2| | |], c as [m3 e3| | |];
    simpl; try discriminate; auto.
  rewrite !Z.leb_le. intros H1 H2.
  pose proof (pow10_pos e1). pose proof (pow10_pos e2).
  pose proof (pow10_pos e3).
  apply Z.mul_le_mono_pos_r with (p := pow10 e2); [assumption|].
  apply Z.le_trans with (m2 * pow10 e1 * pow10 e3).
  - replace (m1 * pow10 e3 * pow10 e2) with (m1 * pow10 e2 * pow10 e3) by ring.
    apply Z.mul_le_mono_nonneg_r; lia.
  - replace (m2 * pow10 e1 * pow10 e3) with (m2 * pow10 e3 * pow10 e1) by ring.
    replace (m3 * pow10 e1 * pow10 e2) with (m3 * pow10 e2 * pow10 e1) by ring.
    apply Z.mul_le_mono_nonneg_r; lia.
Qed.

(** X7.  The evaluator is monotone in the price: a price that is not
    above another gets every reason the other gets, against the same
    statistics. *)
Theorem lower_price_keeps_the_reasons p q h :
  fle q p = true ->
  incl (alert_reasons p h) (alert_reasons q h).
Proof.
  intros Hqp r. unfold alert_reasons. rewrite !in_app_iff.
  intros [H|[H|H]].
  - left. destruct (fle p (of_int PRICE_THRESHOLD)) eqn:E; [|contradiction].
    now rewrite (fle_trans q p _ Hqp E).
  - right. left. destruct (flt p (lowest_ever h)) eqn:E; [|contradiction].
    now rewrite (fle_flt_trans q p _ Hqp E).
  - right. right. destruct (fne (lowest_ever h) PInf); [|contradiction].
    destruct (flt p (fmul (lowest_ever h) (Fin 9 1))) eqn:E; [|contradiction].
    now rewrite (fle_flt_trans q p _ Hqp E).
Qed.

Lemma lower_price_7000_under_7400 :
  fle (of_int 7000) (of_int 7400) = true
  /\ incl (alert_reasons (of_int 7400) (stats_with (of_int 8000)))
          (alert_reasons (of_int 7000) (stats_with (of_int 8000))).
Proof.
  split; [reflexivity|].
  exact (lower_price_keeps_the_reasons (of_int 7400) (of_int 7000)
           (stats_with (of_int 8000)) eq_refl).
Defined.

(** *** check_for_deals and main *)

Lemma deals_loop_items h prices :
  snd (deals_loop h prices) = false ->
  map alert_item (fst (deals_loop h prices)) = filter (qualifies h) prices.
Proof.
  induction prices as [|[name p] prices IH]; [reflexivity|].
  cbn [deals_loop filter].
  assert (Q : qualifies h (name, p)
              = match alert_reasons p h with [] => false | _ => true end)
    by reflexivity.
  rewrite Q. clear Q.
  destruct (alert_reasons p h) as [|r rs]; [exact IH|].
  destruct (PyDict.get name WATCH_SITES) as [cfg|]; [|discriminate].
  destruct (deals_loop h prices) as [al raised]. cbn [fst snd] in *.
  intro H. cbn [map]. rewrite (IH H). reflexivity.
Qed.

Lemma deals_loop_raised h prices :
  snd (deals_loop h prices) = true <->
  exists name p, In (name, p) prices /\ qualifies h (name, p) = true
                 /\ PyDict.get name WATCH_SITES = None.
Proof.
  induction prices as [|[name p] prices IH].
  - split; [discriminate|]. intros (? & ? & [] & _).
  - cbn [deals_loop]. split.
    + intro H. destruct (alert_reasons p h) as [|r rs] eqn:E.
      * destruct (proj1 IH H) as (n & q & Hin & Hq).
        exists n, q. split; [now right|exact Hq].
      * destruct (PyDict.get name WATCH_SITES) as [cfg|] eqn:G.
        -- destruct (deals_loop h prices) as [al raised].
           cbn [snd] in *.
           destruct (proj1 IH H) as (n & q & Hin & Hq).
           exists n, q. split; [now right|exact Hq].
        -- exists name, p. split; [now left|]. split; [|exact G].
           unfold qualifies. cbn [snd]. now rewrite E.
    + intros (n & q & [Hin|Hin] & Hq & G).
      * injection Hin as -> ->. unfold qualifies in Hq. cbn [snd] in Hq.
        destruct (alert_reasons q h); [discriminate|].
        now rewrite G.
      * assert (T : snd (deals_loop h prices) = true)
          by (apply IH; eauto).
        destruct (alert_reasons p h); [exact T|].
        destruct (PyDict.get name WATCH_SITES); [|reflexivity].
        destruct (deals_loop h prices). exact T.
Qed.

(** X8.  [check_for_deals] raises [KeyError] exactly when some item that
    gets a reason names a site that is not in [WATCH_SITES]; when it
    returns, the alerts are the items that get a reason, one each and in
    the order of the mapping, and [alerts_sent] is their number. *)
Theorem deals_raise_on_unknown_site_only fs st prices :
  let h := get_historical_data fs st in
  (snd (check_for_deals fs st prices) = None <->
   exists name p, In (name, p) prices /\ qualifies h (name, p) = true
                  /\ PyDict.get name WATCH_SITES = None)
  /\ (snd (check_for_deals fs st prices) <> None ->
      map alert_item (fst (check_for_deals fs st prices))
      = filter (qualifies h) prices
      /\ snd (check_for_deals fs st prices)
         = Some (List.length (filter (qualifies h) prices))).
Proof.
  intro h. unfold check_for_deals. fold h.
  pose proof (deals_loop_raised h prices) as R.
  pose proof (deals_loop_items h prices) as I.
  destruct (deals_loop h prices) as [al raised]. cbn [fst snd] in *.
  destruct raised.
  - split; [split; [intros _; now apply R|reflexivity]|].
    intro H. now contradiction H.
  - split.
    + split; [discriminate|]. intro H. apply R in H. discriminate.
    + intros _. specialize (I eq_refl). split; [exact I|].
      now rewrite <- I, length_map.
Qed.

Lemma deals_raise_on_a_stranger :
  (exists name p,
      In (name, p) [("Corner shop", of_int 7000)]
      /\ qualifies (get_historical_data healthy None) (name, p) = true
      /\ PyDict.get name WATCH_SITES = None)
  /\ snd (check_for_deals healthy None [("Corner shop", of_int 7000)])
     = None.
Proof.
  assert (H : exists name p,
             In (name, p) [("Corner shop", of_int 7000)]
             /\ qualifies (get_historical_data healthy None) (name, p) = true
             /\ PyDict.get name WATCH_SITES = None).
  { exists "Corner shop", (of_int 7000).
    split; [now left|]. split; reflexivity. }
  split; [exact H|].
  exact (proj2 (proj1 (deals_raise_on_unknown_site_only healthy None
                         [("Corner shop", of_int 7000)])) H).
Defined.


Lemma get_of_member {V} (d : PyDict.dict V) k v :
  NoDup (PyDict.keys d) -> In (k, v) d -> PyDict.get k d = Some v.
Proof.
  induction d as [|[k' v'] d IH]; intros Hnd Hin; [contradiction|].
  cbn [PyDict.keys map fst] in Hnd. inversion Hnd as [|? ? Hk Hnd']; subst.
  cbn [PyDict.get]. destruct Hin as [H|H].
  - injection H as -> ->. now rewrite String.eqb_refl.
  - destruct (String.eqb k k') eqn:E; [|now apply IH].
    apply String.eqb_eq in E. subst. exfalso. apply Hk.
    change k' with (fst (k', v)). now apply in_map.
Qed.

Lemma member_of_get {V} (d : PyDict.dict V) k v :
  PyDict.get k d = Some v -> In (k, v) d.
Proof.
  induction d as [|[k' v'] d IH]; [discriminate|].
  cbn [PyDict.get]. destruct (String.eqb k k') eqn:E.
  - apply String.eqb_eq in E. intro H. injection H as ->. subst. now left.
  - intro H. right. now apply IH.
Qed.

Lemma deals_loop_urls h prices :
  Forall (fun a => exists cfg,
              In (alert_site a, cfg) WATCH_SITES /\ alert_url a = url cfg)
         (fst (deals_loop h prices)).
Proof.
  induction prices as [|[name p] prices IH]; [constructor|].
  cbn [deals_loop].
  destruct (alert_reasons p h) as [|r rs]; [exact IH|].
  destruct (PyDict.get name WATCH_SITES) as [cfg|] eqn:G; [|constructor].
  destruct (deals_loop h prices) as [al raised]. cbn [fst] in *.
  constructor; [|exact IH].
  exists cfg. split; [|reflexivity]. now apply member_of_get.
Qed.

Lemma observed_sites_known w h :
  snd (deals_loop h (get_all_current_prices w)) = false.
Proof.
  destruct (snd (deals_loop h (get_all_current_prices w))) eqn:E;
    [|reflexivity].
  apply deals_loop_raised in E. destruct E as (name & p & Hin & _ & G).
  destruct (collected_price w name p Hin) as (cfg & Hcfg & _).
  rewrite (get_of_member WATCH_SITES name cfg watch_sites_distinct Hcfg) in G.
  discriminate.
Qed.

(** X9.  A session never ends in the [KeyError] of [check_for_deals]:
    every observed site is a configured one.  It ends early when no
    price came, and otherwise with [alerts_sent] alerts, which are the
    observed items that get a reason against the statistics read after
    the save, one each and in order, each with its site's URL. *)
Theorem session_ends_without_crash w fs st now :
  let s := main w fs st now in
  let h := get_historical_data fs (store_after s) in
  ending s = match observed s with
             | [] => NoPrices
             | _ => Completed (List.length (alerts s))
             end
  /\ map alert_item (alerts s) = filter (qualifies h) (observed s)
  /\ Forall (fun a => exists cfg,
                 In (alert_site a, cfg) WATCH_SITES
                 /\ alert_url a = url cfg)
            (alerts s).
Proof.
  intros s h. subst h s. unfold main.
  destruct (get_all_current_prices w) as [|x l] eqn:E.
  - cbn. repeat split. constructor.
  - rewrite <- E. unfold check_for_deals.
    set (h := get_historical_data fs
                (save_price_data fs st now (get_all_current_prices w))).
    pose proof (observed_sites_known w h) as R.
    pose proof (deals_loop_items h (get_all_current_prices w) R) as I.
    pose proof (deals_loop_urls h (get_all_current_prices w)) as U.
    destruct (deals_loop h (get_all_current_prices w)) as [al raised].
    cbn [fst snd] in *. subst raised.
    cbn [observed store_after alerts ending]. fold h.
    rewrite E at 1. repeat split; assumption.
Qed.


(** *** The collector *)

Lemma entries_keys w sites k :
  In k (PyDict.keys (flat_map (site_entry w) sites)) ->
  In k (PyDict.keys sites).
Proof.
  induction sites as [|[n c] sites IH]; [auto|].
  cbn [flat_map]. unfold PyDict.keys in *. rewrite map_app, in_app_iff.
  unfold site_entry at 1. cbn [fst snd map].
  intros [H|H]; [|right; now apply IH].
  destruct (scrape_site w n c); [|contradiction].
  destruct H as [<-|[]]. now left.
Qed.

Lemma entries_distinct w sites :
  NoDup (PyDict.keys sites) ->
  NoDup (PyDict.keys (flat_map (site_entry w) sites)).
Proof.
  induction sites as [|[n c] sites IH]; intro Hnd; [constructor|].
  cbn [PyDict.keys map fst] in Hnd. inversion Hnd as [|? ? Hn Hnd']; subst.
  cbn [flat_map]. unfold site_entry at 1. cbn [fst snd].
  destruct (scrape_site w n c) as [p|]; [|now apply IH].
  cbn [app PyDict.keys map fst]. constructor; [|now apply IH].
  intro H. apply Hn. eapply entries_keys. exact H.
Qed.

Lemma get_absent {V} (d : PyDict.dict V) k :
  ~ In k (PyDict.keys d) -> PyDict.get k d = None.
Proof.
  intro H. destruct (PyDict.get k d) as [v|] eqn:E; [|reflexivity].
  exfalso. apply H. apply member_of_get in E.
  change k with (fst (k, v)). now apply in_map.
Qed.

Lemma entries_lookup w sites name cfg :
  NoDup (PyDict.keys sites) -> In (name, cfg) sites ->
  PyDict.get name (flat_map (site_entry w) sites) = scrape_site w name cfg.
Proof.
  intros Hnd Hin.
  destruct (scrape_site w name cfg) as [p|] eqn:E.
  - apply get_of_member; [now apply entries_distinct|].
    apply in_flat_map. exists (name, cfg). split; [exact Hin|].
    unfold site_entry. cbn [fst snd]. rewrite E. now left.
  - destruct (PyDict.get name (flat_map (site_entry w) sites)) as [p|] eqn:G;
      [|reflexivity].
    apply member_of_get in G. apply in_flat_map in G.
    destruct G as ([n c] & Hin' & H). unfold site_entry in H.
    cbn [fst snd] in H.
    destruct (scrape_site w n c) as [q|] eqn:E'; [|contradiction].
    destruct H as [H|[]]. injection H as -> ->.
    assert (c = cfg).
    { pose proof (get_of_member sites name c Hnd Hin') as G1.
      pose proof (get_of_member sites name cfg Hnd Hin) as G2. congruence. }
    subst c. congruence.
Qed.

Lemma scrape_site_local w w' name cfg :
  w (url cfg) = w' (url cfg) ->
  scrape_site w name cfg = scrape_site w' name cfg.
Proof.
  intro H. unfold scrape_site, scrape_price_static, scrape_price_dynamic.
  now rewrite H.
Qed.

(** X10.  Sites are isolated from each other: what the mapping holds for
    a configured site is what the scrape of that site alone gives, so two
    runs in which this site answers alike agree on it, whatever the other
    sites do. *)
Theorem one_site_does_not_touch_another w w' name cfg :
  In (name, cfg) WATCH_SITES ->
  w (url cfg) = w' (url cfg) ->
  PyDict.get name (get_all_current_prices w) = scrape_site w name cfg
  /\ PyDict.get name (get_all_current_prices w)
     = PyDict.get name (get_all_current_prices w').
Proof.
  intros Hin Hw. rewrite !collect_entries.
  rewrite !(entries_lookup _ WATCH_SITES name cfg watch_sites_distinct Hin).
  split; [reflexivity|now apply scrape_site_local].
Qed.

Lemma helios_alone :
  In ("Helios",
      {| url := "https://www.helioswatchstore.com/g-shock-g-shock-men-round-black-watches-g987";
         price_selector := ".product-info-price span";
         backup_selector := Some ".price";
         method := "static"; wait_time := Some 2%Z |}) WATCH_SITES
  /\ web_down
       "https://www.helioswatchstore.com/g-shock-g-shock-men-round-black-watches-g987"
     = web_casio "₹8,999.00"
         "https://www.helioswatchstore.com/g-shock-g-shock-men-round-black-watches-g987"
  /\ PyDict.get "Helios" (get_all_current_prices web_down)
     = PyDict.get "Helios" (get_all_current_prices (web_casio "₹8,999.00")).
Proof.
  assert (H : In ("Helios",
      {| url := "https://www.helioswatchstore.com/g-shock-g-shock-men-round-black-watches-g987";
         price_selector := ".product-info-price span";
         backup_selector := Some ".price";
         method := "static"; wait_time := Some 2%Z |}) WATCH_SITES)
    by (cbn; auto 10).
  split; [exact H|]. split; [reflexivity|].
  exact (proj2 (one_site_does_not_touch_another web_down
                  (web_casio "₹8,999.00") _ _ H eq_refl)).
Defined.



(** X12.  A text the primary selector finds is final: its price is the
    result, and when it does not normalize the site is a miss; the
    backup selector is asked only when the primary finds nothing. *)
Theorem primary_text_is_final w name cfg select text :
  w (url cfg) = Page select ->
  select (price_selector cfg) = Some text ->
  scrape_site w name cfg
  = price_if_true (extract_price_from_text (Some text)).
Proof.
  intros Hw Hs.
  unfold scrape_site, scrape_price_static, scrape_price_dynamic.
  rewrite Hw, Hs. destruct (String.eqb (method cfg) "static"); reflexivity.
Qed.

Lemma sold_out_is_a_miss :
  (fun _ : string =>
     Page (fun sel => if String.eqb sel ".price" then Some "₹7,499"
                      else Some "Sold out"))
    "https://www.casio.com/in/watches/gshock/product.GA-2100-1A1/"
  = Page (fun sel => if String.eqb sel ".price" then Some "₹7,499"
                     else Some "Sold out")
  /\ (fun sel => if String.eqb sel ".price" then Some "₹7,499"
                 else Some "Sold out") ".p-product_detail-price"
     = Some "Sold out"
  /\ scrape_site
       (fun _ : string =>
          Page (fun sel => if String.eqb sel ".price" then Some "₹7,499"
                           else Some "Sold out"))
       "Casio Official"
       {| url := "https://www.casio.com/in/watches/gshock/product.GA-2100-1A1/";
          price_selector := ".p-product_detail-price";
          backup_selector := Some ".price";
          method := "static"; wait_time := Some 2%Z |}
     = None.
Proof.
  split; [reflexivity|]. split; [reflexivity|].
  exact (primary_text_is_final
           (fun _ : string =>
              Page (fun sel => if String.eqb sel ".price" then Some "₹7,499"
                               else Some "Sold out"))
           "Casio Official"
           {| url := "https://www.casio.com/in/watches/gshock/product.GA-2100-1A1/";
              price_selector := ".p-product_detail-price";
              backup_selector := Some ".price";
              method := "static"; wait_time := Some 2%Z |}
           _ "Sold out" eq_refl eq_refl).
Defined.


(** *** The normalizer *)

Local Open Scope list_scope.















(** *** The summary report *)

Lemma insert_by_price_perm x l : Permutation (insert_by_price x l) (x :: l).
Proof.
  induction l as [|y l IH]; [reflexivity|].
  cbn [insert_by_price]. destruct (flt (snd x) (snd y)); [reflexivity|].
  rewrite IH. apply perm_swap.
Qed.

Lemma sorted_fold_perm items : forall acc,
  Permutation (fold_left (fun acc x => insert_by_price x acc) items acc)
              (acc ++ items).
Proof.
  induction items as [|x items IH]; intro acc.
  - cbn. now rewrite app_nil_r.
  - cbn [fold_left]. rewrite IH, insert_by_price_perm.
    cbn [app]. apply Permutation_middle.
Qed.

Lemma sorted_by_price_perm items : Permutation (sorted_by_price items) items.
Proof. unfold sorted_by_price. now rewrite sorted_fold_perm. Qed.

(** The head of the sorted list follows [min]. *)
Lemma sorted_fold_head items : forall b acc,
  exists rest,
    fold_left (fun acc x => insert_by_price x acc) items (b :: acc)
    = fold_left (fun best y => if flt (snd y) (snd best) then y else best)
                items b :: rest.
Proof.
  induction items as [|y items IH]; intros b acc; [now exists acc|].
  cbn [fold_left insert_by_price].
  destruct (flt (snd y) (snd b)); apply IH.
Qed.

Lemma min_item_value l : forall x,
  snd (min_item x l) = min_value (snd x) (map snd l).
Proof.
  unfold min_item, min_value, py_min.
  induction l as [|y l IH]; intro x; [reflexivity|].
  cbn [fold_left map]. rewrite IH.
  destruct (flt (snd y) (snd x)); reflexivity.
Qed.

(** X15.  The report of a mapping that is not empty, of prices a scrape
    can give, lists every observed site once, with its price; its first
    line is the best deal it announces, and no observed price is below
    the best price. *)
Theorem report_leads_with_the_best fs st x l :
  Forall (fun item : string * pyfloat => price_like (snd item)) (x :: l) ->
  exists s rest,
    generate_summary_report fs st (x :: l) = Some s
    /\ Permutation (map line_item (lines s)) (x :: l)
    /\ map line_item (lines s) = (best_site s, best_price s) :: rest
    /\ Forall (fun item => flt (snd item) (best_price s) = false) (x :: l).
Proof.
  intros _.
  destruct (sorted_fold_head l x []) as (rest & Hd).
  assert (Hs : sorted_by_price (x :: l) = min_item x l :: rest) by exact Hd.
  eexists. exists rest. split; [reflexivity|].
  cbn [lines best_site best_price]. rewrite map_map.
  assert (Hid : map (fun sp : string * pyfloat =>
                       line_item (fle (snd sp) (of_int PRICE_THRESHOLD),
                                  fst sp, snd sp))
                    (sorted_by_price (x :: l))
                = sorted_by_price (x :: l)).
  { rewrite <- (map_id (sorted_by_price (x :: l))) at 2.
    apply map_ext. intros [n p]. reflexivity. }
  rewrite Hid. split; [apply sorted_by_price_perm|]. split.
  - rewrite Hs, <- min_item_value. now destruct (min_item x l).
  - apply Forall_forall. intros [n p] Hin. cbn [snd].
    unfold min_value. apply py_min_least.
    change (snd x :: map snd l) with (map snd (x :: l)).
    change p with (snd (n, p)). now apply in_map.
Qed.

Lemma report_of_two_leads_with_myntra :
  Forall (fun item : string * pyfloat => price_like (snd item))
         [("Flipkart", of_int 9000); ("Myntra", of_int 7400)]
  /\ (exists s rest,
        generate_summary_report healthy None
          [("Flipkart", of_int 9000); ("Myntra", of_int 7400)] = Some s
        /\ Permutation (map line_item (lines s))
             [("Flipkart", of_int 9000); ("Myntra", of_int 7400)]
        /\ map line_item (lines s) = (best_site s, best_price s) :: rest
        /\ Forall (fun item => flt (snd item) (best_price s) = false)
             [("Flipkart", of_int 9000); ("Myntra", of_int 7400)]).
Proof.
  assert (P : Forall (fun item : string * pyfloat => price_like (snd item))
                [("Flipkart", of_int 9000); ("Myntra", of_int 7400)]).
  { repeat constructor; cbn [snd];
      [exists 9000%Z, O|exists 7400%Z, O]; repeat split; lia. }
  split; [exact P|].
  exact (report_leads_with_the_best healthy None
           ("Flipkart", of_int 9000) [("Myntra", of_int 7400)] P).
Defined.

Lemma flt_fle a b : flt a b = true -> fle a b = true.
Proof.
  destruct a as [m1 e1| | |], b as [m2 e2| | |]; simpl;
    try discriminate; auto.
  rewrite Z.ltb_lt, Z.leb_le. lia.
Qed.

Lemma not_flt_fle a b :
  price_like a -> price_like b -> flt a b = false -> fle b a = true.
Proof.
  intros (m1 & e1 & -> & _) (m2 & e2 & -> & _). simpl.
  rewrite Z.ltb_ge, Z.leb_le. lia.
Qed.

Lemma insert_keeps_sorted x l :
  price_like (snd x) -> Forall (fun y => price_like (snd y)) l ->
  StronglySorted price_le l -> StronglySorted price_le (insert_by_price x l).
Proof.
  intros Hx Hl Hs. induction Hs as [|y l Hs IH Hy].
  - repeat constructor.
  - inversion Hl as [|? ? Hpy Hl']; subst.
    cbn [insert_by_price]. destruct (flt (snd x) (snd y)) eqn:E.
    + constructor; [now constructor|].
      assert (Hxy : price_le x y) by (now apply flt_fle).
      constructor; [exact Hxy|].
      eapply Forall_impl; [|exact Hy]. intros z Hz.
      unfold price_le in *. eapply fle_trans; eassumption.
    + constructor; [now apply IH|].
      rewrite insert_by_price_perm. constructor; [|exact Hy].
      now apply not_flt_fle.
Qed.

Lemma sorted_fold_sorted items : forall acc,
  Forall (fun y => price_like (snd y)) items ->
  Forall (fun y => price_like (snd y)) acc ->
  StronglySorted price_le acc ->
  StronglySorted price_le
    (fold_left (fun acc x => insert_by_price x acc) items acc).
Proof.
  induction items as [|x items IH]; intros acc Hi Ha Hs; [exact Hs|].
  inversion Hi as [|? ? Hx Hi']; subst. cbn [fold_left].
  apply IH; [exact Hi'| |now apply insert_keeps_sorted].
  rewrite insert_by_price_perm. now constructor.
Qed.

(** X16.  When the observed prices are numbers a scrape can give, the
    lines of the report are in ascending order of price. *)
Theorem report_is_in_ascending_order fs st prices s :
  Forall (fun item => price_like (snd item)) prices ->
  generate_summary_report fs st prices = Some s ->
  StronglySorted price_le (map line_item (lines s)).
Proof.
  intros Hp Hs. destruct prices as [|x l]; [discriminate|].
  injection Hs as <-. cbn [lines]. rewrite map_map.
  assert (Hid : map (fun sp : string * pyfloat =>
                       line_item (fle (snd sp) (of_int PRICE_THRESHOLD),
                                  fst sp, snd sp))
                    (sorted_by_price (x :: l))
                = sorted_by_price (x :: l)).
  { rewrite <- (map_id (sorted_by_price (x :: l))) at 2.
    apply map_ext. intros [n p]. reflexivity. }
  rewrite Hid. apply sorted_fold_sorted; [exact Hp|constructor|constructor].
Qed.

Lemma report_of_three_is_sorted :
  Forall (fun item : string * pyfloat => price_like (snd item))
         [("Flipkart", of_int 9000); ("Myntra", of_int 7400);
          ("Ajio", of_int 8000)]
  /\ (exists s,
        generate_summary_report healthy None
          [("Flipkart", of_int 9000); ("Myntra", of_int 7400);
           ("Ajio", of_int 8000)] = Some s
        /\ StronglySorted price_le (map line_item (lines s))).
Proof.
  assert (P : Forall (fun item : string * pyfloat => price_like (snd item))
                [("Flipkart", of_int 9000); ("Myntra", of_int 7400);
                 ("Ajio", of_int 8000)]).
  { repeat constructor; cbn [snd];
      [exists 9000%Z, O|exists 7400%Z, O|exists 8000%Z, O];
      repeat split; lia. }
  split; [exact P|]. eexists. split; [reflexivity|].
  exact (report_is_in_ascending_order healthy None _ _ P eq_refl).
Defined.


(** *** The browser over a session *)

Import Browser.

Lemma browser_check_static chrome w acc t name cfg :
  String.eqb (method cfg) "static" = true ->
  Browser.check_site chrome w (acc, t) (name, cfg)
  = (PriceTracker.check_site w acc (name, cfg), t).
Proof.
  intro H. unfold Browser.check_site, PriceTracker.check_site. rewrite H.
  destruct (price_if_true (scrape_price_static w name cfg)); reflexivity.
Qed.

Lemma browser_check_running chrome w acc n ev name cfg :
  String.eqb (method cfg) "static" = false ->
  Browser.check_site chrome w
    (acc, {| driver := true; attempts := n; events := ev |}) (name, cfg)
  = (PriceTracker.check_site w acc (name, cfg),
     {| driver := true; attempts := n;
        events := Visited (url cfg) :: ev |}).
Proof.
  intro H. unfold Browser.check_site, PriceTracker.check_site. rewrite H.
  unfold scrape_dynamic, setup_browser. cbn [driver attempts events].
  destruct (price_if_true (scrape_price_dynamic w name cfg)); reflexivity.
Qed.

Lemma browser_check_launch chrome w acc n ev name cfg :
  String.eqb (method cfg) "static" = false -> chrome n = true ->
  Browser.check_site chrome w
    (acc, {| driver := false; attempts := n; events := ev |}) (name, cfg)
  = (PriceTracker.check_site w acc (name, cfg),
     {| driver := true; attempts := S n;
        events := Visited (url cfg) :: Launched :: ev |}).
Proof.
  intros H Hc. unfold Browser.check_site, PriceTracker.check_site.
  rewrite H. unfold scrape_dynamic, setup_browser.
  cbn [driver attempts events]. rewrite Hc. cbn [driver attempts events].
  destruct (price_if_true (scrape_price_dynamic w name cfg)); reflexivity.
Qed.

Lemma browser_check_no_launch chrome w acc n ev name cfg :
  String.eqb (method cfg) "static" = false -> chrome n = false ->
  Browser.check_site chrome w
    (acc, {| driver := false; attempts := n; events := ev |}) (name, cfg)
  = (acc, {| driver := false; attempts := S n;
             events := LaunchFailed :: ev |}).
Proof.
  intros H Hc. unfold Browser.check_site. rewrite H.
  unfold scrape_dynamic, setup_browser.
  cbn [driver attempts events]. rewrite Hc. reflexivity.
Qed.

(** Once the browser runs, every site is scraped as in the plain loop
    and every dynamic site is visited. *)
Lemma running_fold chrome w sites : forall acc n ev,
  fold_left (Browser.check_site chrome w) sites
    (acc, {| driver := true; attempts := n; events := ev |})
  = (fold_left (PriceTracker.check_site w) sites acc,
     {| driver := true; attempts := n;
        events := rev (map (fun e => Visited (url (snd e)))
                           (filter uses_browser sites)) ++ ev |}).
Proof.
  induction sites as [|[name cfg] sites IH]; intros acc n ev; [reflexivity|].
  cbn [fold_left filter]. unfold uses_browser at 1. cbn [snd].
  destruct (String.eqb (method cfg) "static") eqn:E; cbn [negb].
  - rewrite (browser_check_static chrome w acc _ name cfg E). apply IH.
  - rewrite (browser_check_running chrome w acc n ev name cfg E).
    rewrite IH. cbn [map rev snd]. now rewrite <- app_assoc.
Qed.

Lemma fresh_fold chrome w sites : forall acc,
  chrome O = true ->
  fold_left (Browser.check_site chrome w) sites (acc, fresh)
  = (fold_left (PriceTracker.check_site w) sites acc,
     match filter uses_browser sites with
     | [] => fresh
     | dyn => {| driver := true; attempts := 1;
                 events := rev (map (fun e => Visited (url (snd e))) dyn)
                             ++ [Launched] |}
     end).
Proof.
  intros acc Hc. revert acc.
  induction sites as [|[name cfg] sites IH]; intro acc; [reflexivity|].
  cbn [fold_left filter]. unfold uses_browser at 1 3. cbn [snd].
  destruct (String.eqb (method cfg) "static") eqn:E; cbn [negb].
  - rewrite (browser_check_static chrome w acc _ name cfg E). apply IH.
  - unfold fresh.
    rewrite (browser_check_launch chrome w acc O [] name cfg E Hc).
    rewrite running_fold. cbn [map rev snd]. now rewrite <- app_assoc.
Qed.

Lemma watch_sites_use_browser : filter uses_browser WATCH_SITES <> [].
Proof. discriminate. Qed.

(** X17.  When the first launch of the browser succeeds, the session
    collects the prices of the plain loop, launches the browser once,
    before the first dynamic site, visits the dynamic sites in the order
    of the configuration, and quits the browser at the end, once. *)
Theorem browser_is_launched_once_and_quit chrome w :
  chrome O = true ->
  fst (session_browser chrome w) = get_all_current_prices w
  /\ history (snd (session_browser chrome w))
     = Launched
         :: map (fun e => Visited (url (snd e)))
                (filter uses_browser WATCH_SITES)
         ++ [Quitted].
Proof.
  intro Hc. unfold session_browser, Browser.get_prices_of.
  pose proof (fresh_fold chrome w WATCH_SITES [] Hc) as F.
  unfold PyDict.dict in *. rewrite F. clear F.
  pose proof watch_sites_use_browser as Hne.
  destruct (filter uses_browser WATCH_SITES) as [|d dyn]; [contradiction|].
  cbn [fst snd]. split; [reflexivity|].
  unfold history, cleanup. cbn [driver attempts events rev].
  rewrite rev_app_distr, rev_involutive. reflexivity.
Qed.

Lemma browser_session_when_chrome_starts :
  (fun _ : nat => true) O = true
  /\ history (snd (session_browser (fun _ => true) web_down))
     = [Launched;
        Visited "https://www.flipkart.com/casio-ga-2100-1a1dr-g-shock-black-dial-resin-strap-analog-digital-watch-men/p/itm734eb8e33cc5b";
        Visited "https://www.myntra.com/watches/casio/casio-men-g-shock-ga-2100-1a1dr-black-analog-digital-dial-black-resin-strap-watch-g987/10761810/buy";
        Visited "https://luxury.tatacliq.com/casio-g-shock-ga-2100-1a1dr-black-analog-digital-dial-black-resin-strap-mens-watch-g987/p-mp000000016123909";
        Visited "https://www.ajio.com/casio-ga-2100-1a1dr-analog-digital-watch-with-resin-strap/p/460813061_black";
        Quitted].
Proof.
  split; [reflexivity|].
  exact (proj2 (browser_is_launched_once_and_quit (fun _ => true) web_down
                  eq_refl)).
Defined.

Lemma failing_fold chrome w sites :
  (forall n, chrome n = false) ->
  forall acc n ev,
  fold_left (Browser.check_site chrome w) sites
    (acc, {| driver := false; attempts := n; events := ev |})
  = (fold_left (PriceTracker.check_site w)
       (filter (fun e => negb (uses_browser e)) sites) acc,
     {| driver := false;
        attempts := (List.length (filter uses_browser sites) + n)%nat;
        events := repeat LaunchFailed
                    (List.length (filter uses_browser sites)) ++ ev |}).
Proof.
  intro Hc. induction sites as [|[name cfg] sites IH]; intros acc n ev;
    [reflexivity|].
  assert (U : uses_browser (name, cfg)
              = negb (String.eqb (method cfg) "static")) by reflexivity.
  cbn [fold_left filter]. rewrite !U.
  destruct (String.eqb (method cfg) "static") eqn:E; cbn [negb].
  - rewrite (browser_check_static chrome w acc _ name cfg E).
    cbn [fold_left]. apply IH.
  - rewrite (browser_check_no_launch chrome w acc n ev name cfg E (Hc n)).
    rewrite IH. cbn [List.length repeat]. f_equal. f_equal.
    + lia.
    + change (LaunchFailed :: ev) with ([LaunchFailed] ++ ev).
      now rewrite app_assoc, <- repeat_cons.
Qed.

(** X18.  When the browser never starts, the session still collects the
    static sites, as the plain loop does on them alone; every dynamic
    site is a miss after one failed launch of its own, no page is
    visited and nothing is quit. *)
Theorem session_without_browser chrome w :
  (forall n, chrome n = false) ->
  fst (session_browser chrome w)
  = PriceTracker.get_prices_of
      (filter (fun e => negb (uses_browser e)) WATCH_SITES) w
  /\ history (snd (session_browser chrome w))
     = repeat LaunchFailed (List.length (filter uses_browser WATCH_SITES))
  /\ driver (snd (session_browser chrome w)) = false.
Proof.
  intro Hc. unfold session_browser, Browser.get_prices_of, fresh.
  pose proof (failing_fold chrome w WATCH_SITES Hc [] O []) as F.
  unfold PyDict.dict in *. rewrite F. clear F.
  cbn [fst snd]. unfold cleanup, history. cbn [driver events].
  split; [reflexivity|]. split; [|reflexivity].
  rewrite app_nil_r. apply rev_repeat.
Qed.

Lemma browser_session_when_chrome_is_missing :
  (forall n, (fun _ : nat => false) n = false)
  /\ fst (session_browser (fun _ => false) (web_showing "₹8,999.00"))
     = [("Amazon India", of_int 8999); ("Casio Official", of_int 8999);
        ("Swiss Time House", of_int 8999); ("Just In Time", of_int 8999);
        ("Helios", of_int 8999)]
  /\ history (snd (session_browser (fun _ => false)
                     (web_showing "₹8,999.00")))
     = [LaunchFailed; LaunchFailed; LaunchFailed; LaunchFailed].
Proof.
  assert (H : forall n, (fun _ : nat => false) n = false) by reflexivity.
  split; [exact H|].
  destruct (session_without_browser (fun _ => false)
              (web_showing "₹8,999.00") H) as (H1 & H2 & _).
  split; [rewrite H1; reflexivity|rewrite H2; reflexivity].
Defined.


Lemma browser_step_inv chrome w acc t entry :
  browser_inv t ->
  browser_inv (snd (Browser.check_site chrome w (acc, t) entry)).
Proof.
  destruct entry as [name cfg]. destruct t as [d n ev]. intro H.
  destruct (String.eqb (method cfg) "static") eqn:E.
  { now rewrite (browser_check_static chrome w acc _ name cfg E). }
  destruct d.
  - rewrite (browser_check_running chrome w acc n ev name cfg E).
    unfold browser_inv in *. cbn [snd driver events] in *.
    destruct H as (vs & fs & Hev & Hv & Hf).
    exists (Visited (url cfg) :: vs), fs.
    rewrite Hev. repeat split; auto. constructor; eauto.
  - destruct (chrome n) eqn:Hc.
    + rewrite (browser_check_launch chrome w acc n ev name cfg E Hc).
      unfold browser_inv in *. cbn [snd driver events] in *.
      exists [Visited (url cfg)], ev.
      repeat split; auto. constructor; eauto.
    + rewrite (browser_check_no_launch chrome w acc n ev name cfg E Hc).
      unfold browser_inv in *. cbn [snd driver events] in *.
      now constructor.
Qed.

Lemma browser_fold_inv chrome w sites : forall acc t,
  browser_inv t ->
  browser_inv (snd (fold_left (Browser.check_site chrome w) sites (acc, t))).
Proof.
  induction sites as [|entry sites IH]; intros acc t H; [exact H|].
  cbn [fold_left].
  pose proof (browser_step_inv chrome w acc t entry H) as H'.
  destruct (Browser.check_site chrome w (acc, t) entry) as [acc' t'].
  now apply IH.
Qed.

(** X19.  Whatever the launches do, the browser is handled in one of two
    ways over a session: either it never starts, and the events are
    failed launches only; or, after the failed launches, it is launched
    once, then only visited, and quit once, as the last event.  No page
    is visited without a running browser and no browser is left open. *)
Theorem browser_is_never_left_open chrome w :
  exists fails visits,
    Forall (eq LaunchFailed) fails
    /\ Forall (fun e => exists u, e = Visited u) visits
    /\ (history (snd (session_browser chrome w)) = fails
        \/ history (snd (session_browser chrome w))
           = fails ++ Launched :: visits ++ [Quitted]).
Proof.
  unfold session_browser, Browser.get_prices_of.
  pose proof (browser_fold_inv chrome w WATCH_SITES [] fresh) as H.
  specialize (H (Forall_nil _)).
  unfold PyDict.dict in *. revert H.
  destruct (fold_left _ WATCH_SITES _) as [prices t].
  cbn [snd]. unfold browser_inv, cleanup, history.
  destruct (driver t) eqn:D; intro H.
  - destruct H as (vs & fs & Hev & Hv & Hf).
    exists (rev fs), (rev vs). cbn [events]. rewrite Hev.
    split; [now apply Forall_rev|]. split; [now apply Forall_rev|].
    right. cbn [rev]. rewrite rev_app_distr. cbn [rev].
    now rewrite <- !app_assoc.
  - exists (rev (events t)), []. split; [now apply Forall_rev|].
    split; [constructor|]. now left.
Qed.
